(* ===================================================================== *)
(* anom_app.py: the data-anomaly analyser, embedded in Rocq.             *)
(*                                                                       *)
(* The script is a Streamlit page over a pandas DataFrame.  The pandas   *)
(* and Streamlit primitives it calls are modelled here by their          *)
(* documented behaviour (each one carries the name of the call it        *)
(* stands for); the functions of anom_app.py itself (load_data,          *)
(* data_overview, anomaly_analysis, duplicate_analysis,                  *)
(* create_download_zip, visualizations, main) are transcribed on top of  *)
(* them, statement by statement.                                         *)
(*                                                                       *)
(* Cells are integers, text, booleans or the missing marker; floating    *)
(* point cells, chart styling and the bytes of the xlsx/zip encodings    *)
(* are outside the model.                                                *)
(* ===================================================================== *)

From HB Require Import structures.
From mathcomp Require Import boot.
From Stdlib Require Import String Ascii ZArith DecimalString.

Set Implicit Arguments.
Unset Strict Implicit.
Unset Printing Implicit Defensive.

(* --------------------------------------------------------------------- *)
(* Cell values                                                           *)
(* --------------------------------------------------------------------- *)

Inductive value : Type :=
  | VInt of Z
  | VText of string
  | VBool of bool
  | VMissing.

(* Key equality of DataFrame.duplicated / groupby: values of the same kind
   with the same payload.  Unlike Python's ==, for which NaN == NaN is
   False, the hash tables of pandas identify two missing values.  A column
   holds values of one kind besides the missing marker, as the dtypes of
   read_csv have it; an object column that mixes booleans and numbers, which
   read_excel can build and in which pandas takes True for 1 and False for
   0, is outside the model. *)
Definition value_eqb (a b : value) : bool :=
  match a, b with
  | VInt x, VInt y => Z.eqb x y
  | VText s, VText t => String.eqb s t
  | VBool x, VBool y => Bool.eqb x y
  | VMissing, VMissing => true
  | _, _ => false
  end.

Lemma value_eqP : Equality.axiom value_eqb.
Proof.
case=> [x|s|x|] [y|t|y|] /=; try by constructor.
- by case: (Z.eqb_spec x y) => [->|ne]; constructor=> // -[].
- by case: (String.eqb_spec s t) => [->|ne]; constructor=> // -[].
- by case: x; case: y; constructor.
Qed.

HB.instance Definition _ := hasDecEq.Build value value_eqP.
HB.instance Definition _ := hasDecEq.Build string String.eqb_spec.

Definition isna (v : value) : bool := if v is VMissing then true else false.

(* --------------------------------------------------------------------- *)
(* DataFrame                                                             *)
(* --------------------------------------------------------------------- *)

Inductive dtype : Type := Int64 | Float64 | BoolDtype | ObjectDtype | Datetime64.

Definition dtype_eqb (a b : dtype) : bool :=
  match a, b with
  | Int64, Int64 | Float64, Float64 | BoolDtype, BoolDtype
  | ObjectDtype, ObjectDtype | Datetime64, Datetime64 => true
  | _, _ => false
  end.

Lemma dtype_eqP : Equality.axiom dtype_eqb.
Proof. by case; case; constructor. Qed.

HB.instance Definition _ := hasDecEq.Build dtype dtype_eqP.

(* The name numpy prints for a dtype; a dtype compares equal to that
   string, which is what `dtype in ['int64', 'float64']` relies on. *)
Definition dtype_name (d : dtype) : string :=
  match d with
  | Int64 => "int64"
  | Float64 => "float64"
  | BoolDtype => "bool"
  | ObjectDtype => "object"
  | Datetime64 => "datetime64[ns]"
  end.

Definition row : Type := seq value.

(* A table: column names with their dtypes, and the rows in order, each
   with its index label.  pd.read_csv and pd.read_excel build a RangeIndex:
   the labels are 0, 1, ..., n-1, and they tell columns of the same name
   apart (A, A.1): a name is looked up as the name of one column. *)
Record DataFrame : Type := mkDataFrame {
  columns : seq string;
  dtypes : seq dtype;
  rows : seq (nat * row)
}.

Definition row_labels (df : DataFrame) : seq nat := [seq lr.1 | lr <- rows df].

Definition len (df : DataFrame) : nat := size (rows df).

Definition range_index (df : DataFrame) : bool :=
  row_labels df == iota 0 (len df).

(* What the loaders return: distinct column names, one dtype per column,
   every row as wide as the header, a RangeIndex. *)
Definition loaded (df : DataFrame) : bool :=
  [&& uniq (columns df),
      size (dtypes df) == size (columns df),
      all (fun lr : nat * row => size lr.2 == size (columns df)) (rows df)
    & range_index df].

(* df.empty: some axis has length 0. *)
Definition df_empty (df : DataFrame) : bool :=
  (len df == 0) || (size (columns df) == 0).

(* The cell of row r in column c. *)
Definition cell (df : DataFrame) (r : row) (c : string) : value :=
  nth VMissing r (seq.index c (columns df)).

(* The projection of a row onto some columns. *)
Definition project (df : DataFrame) (cols : seq string) (r : row) : row :=
  [seq cell df r c | c <- cols].

(* df[col]: the values of one column, top to bottom. *)
Definition column_values (df : DataFrame) (c : string) : seq value :=
  [seq cell df lr.2 c | lr <- rows df].

Definition column_dtype (df : DataFrame) (c : string) : dtype :=
  nth ObjectDtype (dtypes df) (seq.index c (columns df)).

(* --------------------------------------------------------------------- *)
(* Exceptions and the page monad                                         *)
(* --------------------------------------------------------------------- *)

Inductive exn_class : Type :=
  | UnicodeDecodeError
  | EmptyDataError
  | ParserError
  | KeyError
  | ValueError
  | UnboundLocalError
  | AttributeError
  | IllegalCharacterError
  | OtherError.

(* An exception: its class and str(e). *)
Record exn : Type := Exn { exn_cls : exn_class; exn_msg : string }.

Inductive outcome (A : Type) : Type :=
  | Ret of A
  | Raise of exn.

Arguments Raise {A} e.

Definition obind {A B : Type} (o : outcome A) (k : A -> outcome B) : outcome B :=
  match o with
  | Ret a => k a
  | Raise e => Raise e
  end.

(* --------------------------------------------------------------------- *)
(* pandas primitives                                                     *)
(* --------------------------------------------------------------------- *)

(* The keep= argument of DataFrame.duplicated; its default is 'first'. *)
Inductive keep_option : Type := KeepFirst | KeepLast | KeepFalse.

(* DataFrame.duplicated over the keys of the rows, top to bottom:
   'first' marks a row when an earlier row has its key, 'last' when a later
   one has, False when any other row has. *)
Fixpoint duplicated_scan (keep : keep_option) (seen ks : seq row) : seq bool :=
  if ks is k :: rest then
    (match keep with
     | KeepFirst => k \in seen
     | KeepLast => k \in rest
     | KeepFalse => (k \in seen) || (k \in rest)
     end) :: duplicated_scan keep (k :: seen) rest
  else [::].

(* df.duplicated(keep=...): the key of a row is the row, all columns. *)
Definition duplicated (keep : keep_option) (df : DataFrame) : seq bool :=
  duplicated_scan keep [::] [seq lr.2 | lr <- rows df].

(* df[cols] with a list of column names: KeyError when one is absent. *)
Definition getitem_cols (df : DataFrame) (cols : seq string) : outcome DataFrame :=
  if all (fun c => c \in columns df) cols then
    Ret (mkDataFrame cols [seq column_dtype df c | c <- cols]
           [seq (lr.1, project df cols lr.2) | lr <- rows df])
  else Raise (Exn KeyError "not in index").

(* df[m] with a boolean Series m computed from df itself (same index): the
   rows where m holds, all columns, in the order of df. *)
Definition getitem_mask (df : DataFrame) (m : seq bool) : DataFrame :=
  mkDataFrame (columns df) (dtypes df) (mask m (rows df)).

(* ~m *)
Definition invert (m : seq bool) : seq bool := [seq ~~ b | b <- m].

(* m.sum() of a boolean Series *)
Definition bool_sum (m : seq bool) : nat := count id m.

(* df.head(n) *)
Definition df_head (n : nat) (df : DataFrame) : DataFrame :=
  mkDataFrame (columns df) (dtypes df) (take n (rows df)).

(* df[c].isna().sum() and df.isna().sum().sum() *)
Definition isna_sum (df : DataFrame) (c : string) : nat :=
  count isna (column_values df c).

Definition isna_sum_sum (df : DataFrame) : nat :=
  sumn [seq isna_sum df c | c <- columns df].

(* df[c].count(): the cells that are not missing *)
Definition count_notna (df : DataFrame) (c : string) : nat :=
  count (predC isna) (column_values df c).

(* Series.nunique(): distinct values, missing ones left out (dropna=True). *)
Definition nunique (vals : seq value) : nat :=
  size (undup [seq v <- vals | ~~ isna v]).

(* Series.value_counts(): the distinct values that are not missing with
   their numbers of occurrences, most frequent first.  pandas fixes no
   order among values that occur equally often; the merge sort used here
   keeps them in the order of their first occurrences. *)
Definition value_counts (vals : seq value) : seq (value * nat) :=
  let present := [seq v <- vals | ~~ isna v] in
  sort (fun a b : value * nat => b.2 <= a.2)
       [seq (v, count_mem v present) | v <- undup present].

(* The order in which groupby(sort=True) lists its keys: integers by
   value, text by code point, booleans False first.  A column holds one
   kind of value; across kinds the order below is a convention. *)
Definition value_rank (v : value) : nat :=
  match v with VBool _ => 0 | VInt _ => 1 | VText _ => 2 | VMissing => 3 end.

Definition value_leb (a b : value) : bool :=
  match a, b with
  | VInt x, VInt y => Z.leb x y
  | VText s, VText t => String.leb s t
  | VBool x, VBool y => x ==> y
  | _, _ => value_rank a <= value_rank b
  end.

Fixpoint key_leb (a b : row) : bool :=
  match a, b with
  | [::], _ => true
  | _ :: _, [::] => false
  | x :: a', y :: b' => if x == y then key_leb a' b' else value_leb x y
  end.

(* A group summary: one entry per key, with its number of rows. *)
Definition group_table : Type := seq (row * nat).

(* g.groupby(by): no key at all is refused, and so is a name of `by` that
   is no column of g or that names two columns of g. *)
Fixpoint groupby_keys (g : DataFrame) (by_cols : seq string) : outcome unit :=
  if by_cols is c :: rest then
    if c \notin columns g then Raise (Exn KeyError c)
    else if 1 < count_mem c (columns g)
    then Raise (Exn ValueError ("Grouper for '" ++ c ++ "' not 1-dimensional")%string)
    else groupby_keys g rest
  else Ret tt.

Definition groupby (g : DataFrame) (by_cols : seq string) : outcome unit :=
  if nilp by_cols then Raise (Exn ValueError "No group keys passed!")
  else groupby_keys g by_cols.

(* .size() of g.groupby(by): the rows of g grouped by their values in the
   columns `by`.  dropna=True is the default: a row whose key holds a
   missing value belongs to no group.  sort=True is the default: the keys
   come in ascending order. *)
Definition groupby_size (g : DataFrame) (by_cols : seq string) : group_table :=
  let keys := [seq project g by_cols lr.2 | lr <- rows g] in
  let kept := [seq k <- keys | ~~ has isna k] in
  [seq (k, count_mem k kept) | k <- sort key_leb (undup kept)].

(* s.reset_index(name='count') on the sizes of the groups: the keys become
   columns again, under the names of `by`, and the sizes the column count.
   A name that is already a column is not inserted. *)
Definition reset_index_count (by_cols : seq string) (t : group_table)
    : outcome group_table :=
  if "count"%string \in by_cols
  then Raise (Exn ValueError "cannot insert count, already exists")
  else Ret t.

(* t.sort_values('count', ascending=False).  pandas sorts with quicksort,
   which fixes no order among equal counts; the merge sort used here keeps
   them in their former order. *)
Definition sort_values_count_desc (t : group_table) : group_table :=
  sort (fun a b : row * nat => b.2 <= a.2) t.

(* sum(t['count']) *)
Definition count_total (t : group_table) : nat := sumn [seq kc.2 | kc <- t].

(* --------------------------------------------------------------------- *)
(* Streamlit: what a run of the script shows, and what the widgets hold  *)
(* --------------------------------------------------------------------- *)

Inductive chart : Type :=
  | BarMissing of seq (string * nat)
  | HistogramOfCounts of seq nat
  | Histogram of string & nat & string
  | BoxPlot of string & string
  | ViolinPlot of string & string
  | BarChart of seq (value * nat) & string
  | PieChart of seq (value * nat) & string.

Inductive input_kind : Type :=
  Multiselect | TextInput | Button | Selectbox | Slider | ColorPicker | Checkbox.

Inductive ui_event : Type :=
  | Header of string
  | Subheader of string
  | Write of string
  | Warning of string
  | Success of string
  | Info of string
  | Error of string
  | Metric of string & nat
  | MetricRatio of string & nat & nat
  | MissingDetail of string & nat & nat
  | Dataframe of DataFrame
  | ColumnInfo of seq (string * dtype * nat * nat * nat)
  | Groups of group_table
  | Series of seq (value * nat)
  | Describe of string
  | PlotlyChart of chart
  | Input of input_kind & string & seq string
  | DownloadButton of string & seq (string * DataFrame) & string.

(* The state of the widgets and of the clock during one run of the script:
   a widget call returns what the user has entered. *)
Record Widgets : Type := mkWidgets {
  w_selected_cols : seq string;
  w_unique_filename : string;
  w_duplicate_filename : string;
  w_run : bool;
  w_old_zip : bool;
  w_selected_col : string;
  w_custom_title : string;
  w_color_palette : string;
  w_custom_color : string;
  w_use_custom_color : bool;
  w_num_graph_type : string;
  w_cat_graph_type : string;
  w_nbins : nat;
  w_now : string
}.

(* A run shows events in order and either returns or stops on an
   exception. *)
Definition M (A : Type) : Type := (seq ui_event * outcome A)%type.

Definition ret {A : Type} (a : A) : M A := ([::], Ret a).

Definition raise {A : Type} (e : exn) : M A := ([::], Raise e).

(* A call that shows nothing and may raise. *)
Definition call {A : Type} (o : outcome A) : M A := ([::], o).

Definition emit (e : ui_event) : M unit := ([:: e], Ret tt).

Definition bind {A B : Type} (m : M A) (k : A -> M B) : M B :=
  match m with
  | (shown, Ret a) => let: (shown', r) := k a in (shown ++ shown', r)
  | (shown, Raise e) => (shown, Raise e)
  end.

Notation "x <- m ;; k" := (bind m (fun x => k))
  (at level 100, m at next level, right associativity).
Notation "m ;; k" := (bind m (fun _ => k))
  (at level 100, right associativity).

Definition when (b : bool) (m : M unit) : M unit := if b then m else ret tt.

(* An input widget: it is drawn, and returns its current value. *)
Definition widget {A : Type} (kind : input_kind) (label : string)
    (options : seq string) (current : A) : M A :=
  emit (Input kind label options) ;; ret current.

Definition str_of_nat (n : nat) : string :=
  DecimalString.NilZero.string_of_uint (Nat.to_uint n).

(* df[c] with one column name: KeyError when it is absent. *)
Definition getitem_col (df : DataFrame) (c : string) : outcome (seq value) :=
  if c \in columns df then Ret (column_values df c)
  else Raise (Exn KeyError c).

(* --------------------------------------------------------------------- *)
(* Python values that the script passes around in tuples                 *)
(* --------------------------------------------------------------------- *)

Inductive pyval : Type :=
  | PyNone
  | PyBool of bool
  | PyStr of string
  | PyFrame of DataFrame.

Definition is_not_none (v : pyval) : bool := if v is PyNone then false else true.

(* bool(v); the truth value of a DataFrame is ambiguous. *)
Definition truthy (v : pyval) : outcome bool :=
  match v with
  | PyNone => Ret false
  | PyBool b => Ret b
  | PyStr s => Ret (s != EmptyString)
  | PyFrame _ => Raise (Exn ValueError "The truth value of a DataFrame is ambiguous.")
  end.

(* v is not None and not v.empty *)
Definition not_none_nor_empty (v : pyval) : outcome bool :=
  match v with
  | PyNone => Ret false
  | PyFrame d => Ret (~~ df_empty d)
  | _ => Raise (Exn AttributeError "object has no attribute 'empty'")
  end.

(* len(v) *)
Definition py_len (v : pyval) : outcome nat :=
  match v with
  | PyFrame d => Ret (len d)
  | PyStr s => Ret (String.length s)
  | _ => Raise (Exn OtherError "object has no len()")
  end.

(* str(v) inside an f-string; a frame prints as a table, not modelled. *)
Definition py_str (v : pyval) : string :=
  match v with
  | PyNone => "None"
  | PyBool b => (if b then "True" else "False")%string
  | PyStr s => s
  | PyFrame _ => "<DataFrame>"
  end.

(* --------------------------------------------------------------------- *)
(* anom_app.py                                                           *)
(* --------------------------------------------------------------------- *)

(* data_overview(df) *)
Definition data_overview (df : DataFrame) : M unit :=
  emit (Header "📊 Aperçu des Données") ;;
  emit (Metric "Nombre de lignes" (len df)) ;;
  emit (Metric "Nombre de colonnes" (size (columns df))) ;;
  emit (Metric "Valeurs manquantes" (isna_sum_sum df)) ;;
  emit (Metric "Lignes dupliquées" (bool_sum (duplicated KeepFirst df))) ;;
  emit (Subheader "Aperçu des premières lignes") ;;
  emit (Dataframe (df_head 10 df)) ;;
  emit (Subheader "Informations sur les colonnes") ;;
  emit (ColumnInfo
          [seq (c, column_dtype df c, count_notna df c, isna_sum df c,
                nunique (column_values df c)) | c <- columns df]).

(* anomaly_analysis(df) *)
Definition anomaly_analysis (df : DataFrame) : M unit :=
  emit (Header "🚨 Analyse des Anomalies") ;;
  emit (Subheader "Valeurs manquantes par colonne") ;;
  let missing_data := [seq (c, isna_sum df c) | c <- columns df] in
  (* sort_values(ascending=False): quicksort fixes no order among columns
     that miss equally many values; the merge sort keeps that of the table *)
  let missing_data :=
    sort (fun a b : string * nat => b.2 <= a.2)
         [seq cn <- missing_data | 0 < cn.2] in
  (if 0 < size missing_data then
     emit (PlotlyChart (BarMissing missing_data)) ;;
     emit (Write "**Détails des valeurs manquantes:**") ;;
     foldr (fun cn k => emit (MissingDetail cn.1 cn.2 (len df)) ;; k)
           (ret tt) missing_data
   else emit (Success "✅ Aucune valeur manquante détectée!")) ;;
  emit (Subheader "Analyse des doublons") ;;
  let total_duplicates := bool_sum (duplicated KeepFirst df) in
  emit (Metric "Nombre total de doublons" total_duplicates) ;;
  (if 0 < total_duplicates then
     emit (Warning ("⚠️ " ++ str_of_nat total_duplicates
                    ++ " lignes dupliquées détectées")%string)
   else emit (Success "✅ Aucun doublon détecté!")) ;;
  when (0 < total_duplicates)
    (emit (MetricRatio "Pourcentage de doublons" total_duplicates (len df))).

(* Lines 200-201: the summary of the duplicate groups. *)
Definition duplicate_groups (df : DataFrame) (selected_cols : seq string)
    (is_duplicate : seq bool) : outcome group_table :=
  obind (getitem_cols (getitem_mask df is_duplicate) selected_cols) (fun g =>
  obind (groupby g selected_cols) (fun _ =>
  obind (reset_index_count selected_cols (groupby_size g selected_cols)) (fun t =>
  Ret (sort_values_count_desc t)))).

Definition based_on (selected_cols : seq string) : string :=
  ("**Analyse basée sur les colonnes:** " ++ String.concat ", " selected_cols)%string.

Definition first_100_of (n : nat) : string :=
  ("Affichage des 100 premières lignes sur " ++ str_of_nat n ++ " au total")%string.

(* duplicate_analysis(df): the tuple it returns has three components when
   no column is selected and five otherwise. *)
Definition duplicate_analysis (w : Widgets) (df : DataFrame) : M (seq pyval) :=
  emit (Header "🔄 Analyse des Combinaisons de Colonnes") ;;
  emit (Subheader "Sélection des colonnes à analyser") ;;
  selected_cols <-
    widget Multiselect
      "Sélectionnez les colonnes pour analyser les combinaisons uniques/dupliquées:"
      (columns df) (w_selected_cols w) ;;
  if nilp selected_cols then
    emit (Warning "⚠️ Veuillez sélectionner au moins une colonne.") ;;
    ret [:: PyNone; PyNone; PyBool false]
  else
    emit (Subheader "Configuration des fichiers de sortie") ;;
    unique_filename <-
      widget TextInput "Nom du fichier des lignes uniques:" [::]
        (w_unique_filename w) ;;
    duplicate_filename <-
      widget TextInput "Nom du fichier des lignes dupliquées:" [::]
        (w_duplicate_filename w) ;;
    pressed <- widget Button "🚀 Exécuter l'analyse" [::] (w_run w) ;;
    if pressed then
      df_selected <- call (getitem_cols df selected_cols) ;;
      emit (Subheader "Résultats de l'analyse") ;;
      keyed <- call (getitem_cols df selected_cols) ;;
      let is_duplicate := duplicated KeepFalse keyed in
      let unique_rows := getitem_mask df (invert is_duplicate) in
      let duplicate_rows := getitem_mask df is_duplicate in
      emit (Metric "Total des lignes" (len df)) ;;
      emit (Metric "Lignes avec combinaisons uniques" (len unique_rows)) ;;
      emit (Metric "Lignes avec combinaisons dupliquées" (len duplicate_rows)) ;;
      when (0 < len unique_rows)
        (emit (Subheader "✅ Lignes avec combinaisons uniques") ;;
         emit (Write (based_on selected_cols)) ;;
         emit (Dataframe (df_head 100 unique_rows)) ;;
         when (100 < len unique_rows)
           (emit (Info (first_100_of (len unique_rows))))) ;;
      (if 0 < len duplicate_rows then
         emit (Subheader "🔄 Lignes avec combinaisons dupliquées") ;;
         emit (Write (based_on selected_cols)) ;;
         emit (Dataframe (df_head 100 duplicate_rows)) ;;
         when (100 < len duplicate_rows)
           (emit (Info (first_100_of (len duplicate_rows)))) ;;
         emit (Subheader "Analyse des groupes de doublons") ;;
         groups <- call (duplicate_groups df selected_cols is_duplicate) ;;
         emit (Write "**Top 10 des combinaisons les plus dupliquées:**") ;;
         emit (Groups (take 10 groups)) ;;
         when (0 < size groups)
           (emit (PlotlyChart (HistogramOfCounts [seq kc.2 | kc <- groups])))
       else ret tt) ;;
      ret [:: PyFrame unique_rows; PyFrame duplicate_rows; PyBool true;
              PyStr unique_filename; PyStr duplicate_filename]
    else ret [:: PyNone; PyNone; PyBool false; PyNone; PyNone].

(* The characters that openpyxl refuses in the text of a cell: the control
   characters other than tab, line feed and carriage return. *)
Definition illegal_character (c : ascii) : bool :=
  let n := nat_of_ascii c in
  [|| n <= 8, n == 11, n == 12 | (14 <= n) && (n <= 31)].

Fixpoint has_illegal_character (s : string) : bool :=
  match s with
  | EmptyString => false
  | String c s' => illegal_character c || has_illegal_character s'
  end.

(* A sheet has room for 1048576 rows and 16384 columns. *)
Definition sheet_too_large (f : DataFrame) : bool :=
  (1048576 <? N.of_nat (len f))%N || (16384 <? N.of_nat (size (columns f)))%N.

(* The texts of a sheet in the order in which they are written: the
   header, then the cells column after column. *)
Definition texts_written (f : DataFrame) : seq string :=
  columns f
  ++ flatten [seq pmap (fun v => if v is VText s then Some s else None)
                       (column_values f c) | c <- columns f].

(* f.to_excel(writer, index=False) with openpyxl: the header and the cells
   are written to one sheet.  pandas refuses a frame too large for a sheet,
   openpyxl the first text that holds an illegal character. *)
Definition to_excel (f : DataFrame) : outcome unit :=
  if sheet_too_large f then
    Raise (Exn ValueError
             ("This sheet is too large! Your sheet size is: "
              ++ str_of_nat (len f) ++ ", " ++ str_of_nat (size (columns f))
              ++ " Max sheet size is: 1048576, 16384")%string)
  else if [seq s <- texts_written f | has_illegal_character s] is s :: _ then
    Raise (Exn IllegalCharacterError (s ++ " cannot be used in worksheets.")%string)
  else Ret tt.

(* One member of the archive: a workbook with one sheet holding the frame
   without its index; here, its file name and the frame. *)
Definition workbook (filename : string) (v : pyval)
    : outcome (seq (string * DataFrame)) :=
  if v is PyFrame f then
    obind (to_excel f) (fun _ => Ret [:: ((filename ++ ".xlsx")%string, f)])
  else Ret [::].

(* create_download_zip: the members written to the archive, in order. *)
Definition create_download_zip (unique_df duplicate_df : pyval)
    (unique_filename duplicate_filename : string)
    : outcome (seq (string * DataFrame)) :=
  obind (not_none_nor_empty unique_df) (fun u =>
  obind (if u then workbook unique_filename unique_df else Ret [::])
    (fun unique_member =>
  obind (not_none_nor_empty duplicate_df) (fun d =>
  obind (if d then workbook duplicate_filename duplicate_df else Ret [::])
    (fun duplicate_member =>
  Ret (unique_member ++ duplicate_member))))).

Definition numeric_graph_types : seq string :=
  [:: "Histogramme"; "Box Plot"; "Violin Plot"]%string.

Definition categorical_graph_types : seq string :=
  [:: "Bar Chart"; "Pie Chart"]%string.

Definition color_palette_names : seq string :=
  [:: "Défaut"; "Viridis"; "Plasma"; "Blues"; "Reds"; "Greens"; "Pastel";
      "Set1"; "Set2"; "Set3"; "Dark2"; "Océan"; "Sunset"; "Forest"]%string.

(* Line 307: dtype in ['int64', 'float64'] and nunique() > 10 *)
Definition is_numeric (d : dtype) (vals : seq value) : bool :=
  (dtype_name d \in [:: "int64"; "float64"]%string) && (10 < nunique vals).

(* title = custom_title if custom_title else default_title *)
Definition title_or (custom_title default_title : string) : string :=
  if custom_title is EmptyString then default_title else custom_title.

(* px.bar(x=..., y=...) without a data frame: when both arguments are
   empty, plotly takes each for a list of column references and refuses
   the pair. *)
Definition px_bar (counts : seq (value * nat)) (title : string) : outcome chart :=
  if nilp counts
  then Raise (Exn ValueError
    "Cannot accept list of column references or list of columns for both `x` and `y`.")
  else Ret (BarChart counts title).

(* visualizations(df); the colours of the charts are left out. *)
Definition visualizations (w : Widgets) (df : DataFrame) : M unit :=
  emit (Header "📈 Visualisations") ;;
  if df_empty df then
    emit (Warning "Le DataFrame est vide. Aucune visualisation disponible.")
  else
    emit (Subheader "Graphiques individuels") ;;
    selected_col <-
      widget Selectbox "Sélectionnez une colonne à visualiser:" (columns df)
        (w_selected_col w) ;;
    custom_title <-
      widget TextInput "Titre personnalisé (optionnel):" [::] (w_custom_title w) ;;
    color_palette <-
      widget Selectbox "Palette de couleurs:" color_palette_names
        (w_color_palette w) ;;
    custom_color <-
      widget ColorPicker "Couleur personnalisée:" [::] (w_custom_color w) ;;
    use_custom_color <-
      widget Checkbox "Utiliser couleur personnalisée" [::] (w_use_custom_color w) ;;
    if (selected_col != EmptyString) && ~~ df_empty df then
      vals <- call (getitem_col df selected_col) ;;
      let numeric := is_numeric (column_dtype df selected_col) vals in
      (if numeric then
         graph_type <-
           widget Selectbox "Type de graphique pour variable numérique:"
             numeric_graph_types (w_num_graph_type w) ;;
         let default_title :=
           (if graph_type == "Histogramme"%string
            then "Histogramme de " ++ selected_col
            else graph_type ++ " de " ++ selected_col)%string in
         let title := title_or custom_title default_title in
         if graph_type == "Histogramme"%string then
           nbins <- widget Slider "Nombre de bins:" [::] (w_nbins w) ;;
           emit (PlotlyChart (Histogram selected_col nbins title))
         else if graph_type == "Box Plot"%string then
           emit (PlotlyChart (BoxPlot selected_col title))
         else if graph_type == "Violin Plot"%string then
           emit (PlotlyChart (ViolinPlot selected_col title))
         else ret tt
       else
         graph_type <-
           widget Selectbox "Type de graphique pour variable catégorielle:"
             categorical_graph_types (w_cat_graph_type w) ;;
         let title :=
           title_or custom_title (graph_type ++ " de " ++ selected_col)%string in
         let counts := value_counts vals in
         if graph_type == "Bar Chart"%string then
           fig <- call (px_bar counts title) ;;
           emit (PlotlyChart fig)
         else if graph_type == "Pie Chart"%string then
           (if 10 < size counts then
              emit (Warning ("La colonne a " ++ str_of_nat (size counts)
                ++ " valeurs uniques. Affichage limité aux 10 plus fréquentes.")%string) ;;
              emit (PlotlyChart (PieChart (take 10 counts) title))
            else emit (PlotlyChart (PieChart counts title)))
         else ret tt) ;;
      (if numeric then emit (Describe selected_col)
       else
         emit (Write ("**Nombre de valeurs uniques:** "
                      ++ str_of_nat (nunique vals))%string) ;;
         emit (Write "**Distribution des valeurs:**") ;;
         emit (Series (value_counts vals)))
    else ret tt.

(* --------------------------------------------------------------------- *)
(* The uploaded file and load_data                                       *)
(* --------------------------------------------------------------------- *)

(* Streamlit hands the upload over as an in-memory binary stream: the
   bytes, and the position of the next read. *)
Record UploadedFile : Type := mkUploadedFile {
  name : string;
  content : seq Byte.byte;
  position : nat
}.

Inductive encoding : Type := UTF8 | Latin1.

Definition is_continuation (b : nat) : bool := (128 <= b) && (b <= 191).

(* Well-formed UTF-8, as the strict decoder of Python accepts it. *)
Fixpoint utf8_valid (bs : seq nat) : bool :=
  match bs with
  | [::] => true
  | b0 :: rest =>
      if b0 <= 127 then utf8_valid rest
      else if (194 <= b0) && (b0 <= 223) then
        match rest with
        | b1 :: r => is_continuation b1 && utf8_valid r
        | _ => false
        end
      else if (224 <= b0) && (b0 <= 239) then
        match rest with
        | b1 :: b2 :: r =>
            [&& is_continuation b1, is_continuation b2,
                (b0 == 224) ==> (160 <= b1), (b0 == 237) ==> (b1 <= 159)
              & utf8_valid r]
        | _ => false
        end
      else if (240 <= b0) && (b0 <= 244) then
        match rest with
        | b1 :: b2 :: b3 :: r =>
            [&& is_continuation b1, is_continuation b2, is_continuation b3,
                (b0 == 240) ==> (144 <= b1), (b0 == 244) ==> (b1 <= 143)
              & utf8_valid r]
        | _ => false
        end
      else false
  end.

(* Every byte sequence is Latin-1 text. *)
Definition decodes (enc : encoding) (bs : seq Byte.byte) : bool :=
  match enc with
  | UTF8 => utf8_valid [seq Byte.to_nat b | b <- bs]
  | Latin1 => true
  end.

(* str.split(sep) for a one-character separator *)
Fixpoint split (sep : ascii) (s : string) : seq string :=
  match s with
  | EmptyString => [:: EmptyString]
  | String c s' =>
      let segments := split sep s' in
      if Ascii.eqb c sep then EmptyString :: segments
      else String c (seq.head EmptyString segments) :: behead segments
  end.

(* str.lower() of a name made of ASCII characters: the letters A-Z are
   lowered.  Names are strings of bytes; the bytes of a character outside
   ASCII are left as they are, where str.lower() follows Unicode.  The two
   tests of load_data are not affected: a character outside ASCII lowers
   to characters outside ASCII, or to k or i, none of which occurs in csv
   or xlsx. *)
Definition lower_ascii (c : ascii) : ascii :=
  let n := nat_of_ascii c in
  if (65 <= n) && (n <= 90) then ascii_of_nat (n + 32) else c.

Fixpoint lower (s : string) : string :=
  match s with
  | EmptyString => EmptyString
  | String c s' => String (lower_ascii c) (lower s')
  end.

(* One read of a stream that holds no more than the reader asks for: the
   bytes from the current position to the end, and the stream left at its
   end. *)
Definition read_to_end (f : UploadedFile) : seq Byte.byte * UploadedFile :=
  (drop (position f) (content f),
   mkUploadedFile (name f) (content f) (size (content f))).

(* pandas reads a csv file object in blocks of 262144 bytes. *)
Definition read_block : N := 262144%N.

(* What the stream still holds fits in one block. *)
Definition within_one_block (f : UploadedFile) : bool :=
  (N.of_nat (size (drop (position f) (content f))) <=? read_block)%N.

Section Pandas_readers.

(* The tokenizer and type inference of pandas, applied to the text that
   was read: the table, or the exception of the parser. *)
Variable parse_csv : encoding -> seq Byte.byte -> outcome DataFrame.
Variable parse_excel : seq Byte.byte -> outcome DataFrame.

(* pd.read_csv on a stream that holds more than one block: where a read
   that fails leaves the stream depends on the block in which it fails;
   the model leaves this reader open. *)
Variable read_csv_in_blocks :
  encoding -> UploadedFile -> outcome DataFrame * UploadedFile.

(* pd.read_csv(f, encoding=enc) on a file object.  When what the stream
   still holds fits in one block, the first read takes it all: it is
   decoded and parsed, and the stream is left at its end whether the read
   succeeds or fails.  Nothing seeks back to the start. *)
Definition pd_read_csv (enc : encoding) (f : UploadedFile)
    : outcome DataFrame * UploadedFile :=
  if within_one_block f then
    let: (bytes, f') := read_to_end f in
    (if nilp bytes then Raise (Exn EmptyDataError "No columns to parse from file")
     else if decodes enc bytes then parse_csv enc bytes
     else Raise (Exn UnicodeDecodeError "'utf-8' codec can't decode byte"),
     f')
  else read_csv_in_blocks enc f.

(* pd.read_excel(f) *)
Definition pd_read_excel (f : UploadedFile) : outcome DataFrame * UploadedFile :=
  let: (bytes, f') := read_to_end f in (parse_excel bytes, f').

End Pandas_readers.

(* uploaded_file.name.split('.')[-1].lower() *)
Definition file_extension (f : UploadedFile) : string :=
  lower (last EmptyString (split "." (name f))).

Section App.

Variable read_csv : encoding -> UploadedFile -> outcome DataFrame * UploadedFile.
Variable read_excel : UploadedFile -> outcome DataFrame * UploadedFile.

(* load_data(uploaded_file): the pair (df, error) it returns, and the
   stream as the reads have left it. *)
Definition load_data (uploaded_file : UploadedFile)
    : (option DataFrame * option string) * UploadedFile :=
  let: (attempt, f1) :=
    if file_extension uploaded_file == "xlsx"%string then read_excel uploaded_file
    else if file_extension uploaded_file == "csv"%string
    then read_csv UTF8 uploaded_file
    else (Raise (Exn UnboundLocalError
                   "cannot access local variable 'df' where it is not associated with a value"),
          uploaded_file) in
  match attempt with
  | Ret df => ((Some df, None), f1)
  | Raise e =>
      if exn_cls e is UnicodeDecodeError then
        let: (retry, f2) := read_csv Latin1 f1 in
        match retry with
        | Ret df => ((Some df, None), f2)
        | Raise e' => ((None, Some ("Erreur d'encodage: " ++ exn_msg e')%string), f2)
        end
      else ((None, Some ("Erreur lors du chargement: " ++ exn_msg e)%string), f1)
  end.

(* The bound of a line `a, b = result` *)
Definition unpack_error (expected got : nat) : exn :=
  Exn ValueError
    (if expected < got
     then "too many values to unpack (expected " ++ str_of_nat expected ++ ")"
     else "not enough values to unpack (expected " ++ str_of_nat expected
          ++ ", got " ++ str_of_nat got ++ ")")%string.

Definition rows_line (mark filename : string) (n : nat) (suffix : string) : string :=
  (mark ++ filename ++ " " ++ str_of_nat n ++ suffix)%string.

(* Lines 415-459: the tuple has five components. *)
Definition download_section (w : Widgets) (result : seq pyval) : M unit :=
  if result is [:: unique_rows; duplicate_rows; analysis_executed;
                   unique_filename; duplicate_filename] then
    executed <- call (truthy analysis_executed) ;;
    if executed && (is_not_none unique_rows || is_not_none duplicate_rows) then
      emit (Subheader "📥 Téléchargement des résultats") ;;
      u <- call (not_none_nor_empty unique_rows) ;;
      (if u then
         n <- call (py_len unique_rows) ;;
         emit (Write (rows_line "✅ **" (py_str unique_filename ++ ".xlsx:**") n
                        " lignes (toutes colonnes)"))
       else emit (Write "❌ **Aucune ligne avec combinaison unique**")) ;;
      d <- call (not_none_nor_empty duplicate_rows) ;;
      (if d then
         n <- call (py_len duplicate_rows) ;;
         emit (Write (rows_line "🔄 **" (py_str duplicate_filename ++ ".xlsx:**") n
                        " lignes (toutes colonnes)"))
       else emit (Write "❌ **Aucune ligne avec combinaison dupliquée**")) ;;
      zip_buffer <-
        call (create_download_zip unique_rows duplicate_rows
                (py_str unique_filename) (py_str duplicate_filename)) ;;
      emit (DownloadButton "📦 Télécharger les fichiers Excel (ZIP)" zip_buffer
              ("analyse_lignes_" ++ w_now w ++ ".zip")%string) ;;
      (* the first line of the note on the content of the files *)
      emit (Info "**Contenu des fichiers:**")
    else ret tt
  else ret tt.

(* Lines 461-496: the branch kept for tuples of the former version, which
   had two components. *)
Definition former_download_section (w : Widgets) (result : seq pyval) : M unit :=
  if result is [:: unique_combinations; duplicate_combinations] then
    if is_not_none unique_combinations || is_not_none duplicate_combinations then
      emit (Subheader "📥 Téléchargement des résultats") ;;
      u <- call (not_none_nor_empty unique_combinations) ;;
      (if u then
         n <- call (py_len unique_combinations) ;;
         emit (Write (rows_line "✅ **" "Fichier des combinaisons uniques:**" n
                        " lignes"))
       else emit (Write "❌ **Aucune combinaison unique**")) ;;
      d <- call (not_none_nor_empty duplicate_combinations) ;;
      (if d then
         n <- call (py_len duplicate_combinations) ;;
         emit (Write (rows_line "🔄 **" "Fichier des combinaisons dupliquées:**" n
                        " lignes"))
       else emit (Write "❌ **Aucune combinaison dupliquée**")) ;;
      pressed <- widget Button "📦 Télécharger les fichiers (ZIP)" [::] (w_old_zip w) ;;
      if pressed then
        let filename_prefix := ("analyse_anomalies_" ++ w_now w)%string in
        zip_buffer <-
          call (create_download_zip unique_combinations duplicate_combinations
                  filename_prefix "lignes_dupliquees") ;;
        emit (DownloadButton "⬇️ Cliquez ici pour télécharger le ZIP" zip_buffer
                (filename_prefix ++ ".zip")%string) ;;
        emit (Success "✅ Fichiers préparés pour le téléchargement!")
      else ret tt
    else ret tt
  else raise (unpack_error 2 (size result)).

(* `if error:` on the second component of load_data's pair *)
Definition is_error (error : option string) : bool :=
  if error is Some (String _ _) then true else false.

(* main(), for the value of the file uploader *)
Definition main (w : Widgets) (uploaded_file : option UploadedFile) : M unit :=
  if uploaded_file is Some f then
    let: ((df, error), _) := load_data f in
    if is_error error then
      emit (Error ("Erreur lors du chargement du fichier: "
                   ++ odflt EmptyString error)%string)
    else if df is Some df then
      emit (Success "✅ Fichier chargé avec succès!") ;;
      data_overview df ;;
      anomaly_analysis df ;;
      result <- duplicate_analysis w df ;;
      (if size result == 5 then download_section w result
       else former_download_section w result) ;;
      visualizations w df
    else ret tt
  else
    emit (Info "📁 Veuillez uploader un fichier Excel (.xlsx) ou CSV (.csv) pour commencer l'analyse.").

End App.

(* --------------------------------------------------------------------- *)
(* Vocabulary of the statements, and the inputs of the examples          *)
(* --------------------------------------------------------------------- *)

(* The keys of the rows: their projections onto the selected columns. *)
Definition selection_keys (df : DataFrame) (cols : seq string) : seq row :=
  [seq project df cols lr.2 | lr <- rows df].

(* The Series is_duplicate of line 170. *)
Definition is_duplicate (df : DataFrame) (cols : seq string) : seq bool :=
  duplicated_scan KeepFalse [::] (selection_keys df cols).

(* A row whose key is the key of at least two rows of the table. *)
Definition recurs (df : DataFrame) (cols : seq string) (lr : nat * row) : bool :=
  1 < count_mem (project df cols lr.2) (selection_keys df cols).

(* Some row with another label has the key of lr. *)
Definition has_twin (df : DataFrame) (cols : seq string) (lr : nat * row) : bool :=
  has (fun lr' : nat * row =>
         (lr'.1 != lr.1) && (project df cols lr'.2 == project df cols lr.2))
      (rows df).

(* The table of the specification's example, and a run on column A. *)
Definition example_table : DataFrame :=
  mkDataFrame [:: "A"; "B"]%string [:: Int64; ObjectDtype]
    [:: (0, [:: VInt 1; VText "x"]); (1, [:: VInt 1; VText "x"]);
        (2, [:: VInt 2; VText "y"]); (3, [:: VInt 1; VText "z"])].

Definition example_run : Widgets :=
  mkWidgets [:: "A"%string] "lignes_uniques" "lignes_dupliquees" true false
    "A" EmptyString "Défaut" "#FF6B6B" false "Histogramme" "Bar Chart" 20
    "20250101_120000".

(* What duplicate_analysis returns once the analysis has run. *)
Definition analysis_result (w : Widgets) (unique_rows duplicate_rows : DataFrame)
    : outcome (seq pyval) :=
  Ret [:: PyFrame unique_rows; PyFrame duplicate_rows; PyBool true;
          PyStr (w_unique_filename w); PyStr (w_duplicate_filename w)].

(* What duplicate_analysis makes of the rows it has classified: when there
   are duplicate rows it builds the summary of line 200, which fails when a
   selected column is named count; otherwise it returns its five
   components. *)
Definition analysis_outcome (w : Widgets) (unique_rows duplicate_rows : DataFrame)
    : outcome (seq pyval) :=
  if ("count"%string \in w_selected_cols w) && (0 < len duplicate_rows)
  then Raise (Exn ValueError "cannot insert count, already exists")
  else analysis_result w unique_rows duplicate_rows.

(* Two rows that both miss their value in column A. *)
Definition missing_table : DataFrame :=
  mkDataFrame [:: "A"; "B"]%string [:: Float64; Int64]
    [:: (0, [:: VMissing; VInt 1]); (1, [:: VMissing; VInt 2])].

(* A table with two groups of duplicates on column A: two rows with A = 1,
   three with A = 2, and one row of its own. *)
Definition two_groups_table : DataFrame :=
  mkDataFrame [:: "A"; "B"]%string [:: Int64; ObjectDtype]
    [:: (0, [:: VInt 1; VText "a"]); (1, [:: VInt 2; VText "b"]);
        (2, [:: VInt 2; VText "c"]); (3, [:: VInt 3; VText "d"]);
        (4, [:: VInt 1; VText "e"]); (5, [:: VInt 2; VText "f"])].

(* The keys that groupby keeps: those of the marked rows that hold no
   missing value. *)
Definition grouped_keys (df : DataFrame) (cols : seq string) (m : seq bool)
    : seq row :=
  [seq k <- [seq project df cols lr.2 | lr <- mask m (rows df)] | ~~ has isna k].

(* df.duplicated().sum(), the count of lines 60 and 110 *)
Definition duplicated_sum (df : DataFrame) : nat :=
  bool_sum (duplicated KeepFirst df).

(* A run in which no column is selected. *)
Definition nothing_selected : Widgets :=
  mkWidgets [::] "lignes_uniques" "lignes_dupliquees" false false
    "A" EmptyString "Défaut" "#FF6B6B" false "Histogramme" "Bar Chart" 20
    "20250101_120000".

Definition example_upload : UploadedFile :=
  mkUploadedFile "donnees.csv"
    [:: Byte.x41; Byte.x2c; Byte.x42; Byte.x0a; Byte.x31; Byte.x2c; Byte.x78;
        Byte.x0a; Byte.x31; Byte.x2c; Byte.x78; Byte.x0a; Byte.x32; Byte.x2c;
        Byte.x79; Byte.x0a; Byte.x31; Byte.x2c; Byte.x7a; Byte.x0a] 0.

(* A parser that reads the table of the example whatever the bytes. *)
Definition example_parser (enc : encoding) (bytes : seq Byte.byte)
    : outcome DataFrame := Ret example_table.

(* The uploads of the examples fit in one block: the reader in blocks is
   not called on them. *)
Definition example_blocks (enc : encoding) (f : UploadedFile)
    : outcome DataFrame * UploadedFile := (example_parser enc (content f), f).

(* What duplicate_analysis shows when no column is selected. *)
Definition selection_warning (df : DataFrame) : seq ui_event :=
  [:: Header "🔄 Analyse des Combinaisons de Colonnes";
      Subheader "Sélection des colonnes à analyser";
      Input Multiselect
        "Sélectionnez les colonnes pour analyser les combinaisons uniques/dupliquées:"
        (columns df);
      Warning "⚠️ Veuillez sélectionner au moins une colonne."].

(* The select boxes among the events of a run: label and options. *)
Definition selectboxes (shown : seq ui_event) : seq (string * seq string) :=
  pmap (fun e => if e is Input Selectbox label options
                 then Some (label, options) else None) shown.

(* A column of twelve distinct integers. *)
Definition twelve_values : DataFrame :=
  mkDataFrame [:: "n"%string] [:: Int64]
    [seq (i, [:: VInt (Z.of_nat i)]) | i <- iota 0 12].

Definition chart_of_n : Widgets :=
  mkWidgets [::] "lignes_uniques" "lignes_dupliquees" false false
    "n" EmptyString "Défaut" "#FF6B6B" false "Histogramme" "Bar Chart" 20
    "20250101_120000".

(* The upload noms.csv: the nine bytes of "nom", newline, "café", newline
   in Latin-1, where é is the byte E9. *)
Definition latin1_upload : UploadedFile :=
  mkUploadedFile "noms.csv"
    [:: Byte.x6e; Byte.x6f; Byte.x6d; Byte.x0a;
        Byte.x63; Byte.x61; Byte.x66; Byte.xe9; Byte.x0a] 0.

(* --------------------------------------------------------------------- *)
(* Vocabulary of the further properties                                  *)
(* --------------------------------------------------------------------- *)

(* The character c does not occur in s. *)
Fixpoint free_of (c : ascii) (s : string) : bool :=
  match s with
  | EmptyString => true
  | String c' s' => ~~ Ascii.eqb c' c && free_of c s'
  end.

(* A string of ASCII characters. *)
Fixpoint ascii_only (s : string) : bool :=
  match s with
  | EmptyString => true
  | String c s' => (nat_of_ascii c <= 127) && ascii_only s'
  end.

(* The bytes that a stream still holds. *)
Definition remaining (f : UploadedFile) : seq Byte.byte :=
  drop (position f) (content f).

(* The stream once it has been read to its end. *)
Definition exhausted (f : UploadedFile) : UploadedFile :=
  mkUploadedFile (name f) (content f) (size (content f)).

(* A call that returns. *)
Definition returns {A : Type} (o : outcome A) : bool :=
  if o is Ret _ then true else false.

(* The download buttons among the events of a run: the members of the
   archive and its file name. *)
Definition downloads (shown : seq ui_event)
    : seq (seq (string * DataFrame) * string) :=
  pmap (fun e => if e is DownloadButton _ members file_name
                 then Some (members, file_name) else None) shown.

(* The file names that a run enters for the two workbooks. *)
Definition unique_workbook (w : Widgets) : string :=
  (w_unique_filename w ++ ".xlsx")%string.

Definition duplicate_workbook (w : Widgets) : string :=
  (w_duplicate_filename w ++ ".xlsx")%string.

(* Lines 84-85: the columns that miss values with their numbers of missing
   values, most first. *)
Definition missing_data (df : DataFrame) : seq (string * nat) :=
  sort (fun a b : string * nat => b.2 <= a.2)
       [seq cn <- [seq (c, isna_sum df c) | c <- columns df] | 0 < cn.2].

(* The numbers of slices of the pie charts among the events of a run. *)
Definition pie_sizes (shown : seq ui_event) : seq nat :=
  pmap (fun e => if e is PlotlyChart (PieChart slices _)
                 then Some (size slices) else None) shown.

(* The charts among the events of a run. *)
Definition charts (shown : seq ui_event) : seq chart :=
  pmap (fun e => if e is PlotlyChart c then Some c else None) shown.

(* The numbers of rows of the tables, and of entries of the group
   summaries, that a run previews. *)
Definition table_previews (shown : seq ui_event) : seq nat :=
  pmap (fun e => if e is Dataframe d then Some (len d) else None) shown.

Definition group_previews (shown : seq ui_event) : seq nat :=
  pmap (fun e => if e is Groups g then Some (size g) else None) shown.

(* A run that asks for the bar chart of column B. *)
Definition bar_chart_of_B : Widgets :=
  mkWidgets [::] "lignes_uniques" "lignes_dupliquees" false false
    "B" EmptyString "Défaut" "#FF6B6B" false "Histogramme" "Bar Chart" 20
    "20250101_120000".

(* A run in which column A is selected and the button is not pressed. *)
Definition select_A_only : Widgets :=
  mkWidgets [:: "A"%string] "lignes_uniques" "lignes_dupliquees" false false
    "A" EmptyString "Défaut" "#FF6B6B" false "Histogramme" "Bar Chart" 20
    "20250101_120000".

(* A table with a column named count, in which the value 1 occurs twice,
   the parser that reads it, and a run on that column. *)
Definition count_table : DataFrame :=
  mkDataFrame [:: "count"; "B"]%string [:: Int64; ObjectDtype]
    [:: (0, [:: VInt 1; VText "x"]); (1, [:: VInt 1; VText "y"]);
        (2, [:: VInt 2; VText "z"])].

Definition count_parser (enc : encoding) (bytes : seq Byte.byte)
    : outcome DataFrame := Ret count_table.

Definition select_count : Widgets :=
  mkWidgets [:: "count"%string] "lignes_uniques" "lignes_dupliquees" true false
    "B" EmptyString "Défaut" "#FF6B6B" false "Histogramme" "Bar Chart" 20
    "20250101_120000".

(* A table whose column B holds no value. *)
Definition missing_column_table : DataFrame :=
  mkDataFrame [:: "A"; "B"]%string [:: Int64; Float64]
    [:: (0, [:: VInt 1; VMissing]); (1, [:: VInt 2; VMissing])].

(* Runs on both columns of the table of the example, in the two orders. *)
Definition example_run_AB : Widgets :=
  mkWidgets [:: "A"; "B"]%string "lignes_uniques" "lignes_dupliquees" true false
    "A" EmptyString "Défaut" "#FF6B6B" false "Histogramme" "Bar Chart" 20
    "20250101_120000".

Definition example_run_BA : Widgets :=
  mkWidgets [:: "B"; "A"]%string "lignes_uniques" "lignes_dupliquees" true false
    "A" EmptyString "Défaut" "#FF6B6B" false "Histogramme" "Bar Chart" 20
    "20250101_120000".

(* ===================================================================== *)
(* Properties                                                            *)
(* ===================================================================== *)

(* The outcome of a run, step by step. *)

Lemma bind_outcome (A B : Type) (m : M A) (k : A -> M B) :
  (bind m k).2 = match m.2 with Ret a => (k a).2 | Raise e => Raise e end.
Proof. by case: m => shown [a|e] //=; case: (k a). Qed.

Lemma when_outcome (b : bool) (m : M unit) :
  m.2 = Ret tt -> (when b m).2 = Ret tt.
Proof. by case: b. Qed.

Lemma emit_outcome (e : ui_event) : (emit e).2 = Ret tt.
Proof. by []. Qed.

Lemma widget_outcome (A : Type) kind label options (current : A) :
  (widget kind label options current).2 = Ret current.
Proof. by []. Qed.

Lemma call_outcome (A : Type) (o : outcome A) : (call o).2 = o.
Proof. by []. Qed.

Lemma ret_outcome (A : Type) (a : A) : (ret a).2 = Ret a.
Proof. by []. Qed.

Lemma bind_shown (A B : Type) (m : M A) (k : A -> M B) :
  (bind m k).1
  = m.1 ++ match m.2 with Ret a => (k a).1 | Raise _ => [::] end.
Proof. by case: m => shown [a|e] /=; rewrite /bind ?cats0 //; case: (k a). Qed.

#[local] Abbreviation outcomeE :=
  (bind_outcome, emit_outcome, widget_outcome, call_outcome, ret_outcome).

#[local] Arguments bind : simpl never.
#[local] Arguments emit : simpl never.
#[local] Arguments widget : simpl never.
#[local] Arguments call : simpl never.
#[local] Arguments ret : simpl never.
#[local] Arguments when : simpl never.

Section Duplicated.

Implicit Types (seen ks : seq row) (k : row).

Lemma size_duplicated_scan keep seen ks :
  size (duplicated_scan keep seen ks) = size ks.
Proof. by elim: ks seen => //= k ks IH seen; rewrite IH. Qed.

(* keep=False marks the keys that occur at least twice. *)
Lemma duplicated_scan_false seen ks :
  duplicated_scan KeepFalse seen ks =
  [seq (k \in seen) || (1 < count_mem k ks) | k <- ks].
Proof.
elim: ks seen => //= k ks IH seen; rewrite eqxx add1n ltnS -has_count has_pred1.
congr (_ :: _); rewrite IH; apply/eq_in_map => x x_ks.
rewrite in_cons [x == k]eq_sym; case: eqP => [_|_] /=; last by rewrite add0n.
by rewrite add1n ltnS -has_count has_pred1 x_ks orbT.
Qed.

(* keep='first' marks the keys that occurred before. *)
Lemma nth_duplicated_scan_first seen ks i :
  i < size ks ->
  nth false (duplicated_scan KeepFirst seen ks) i =
  (nth [::] ks i \in seen) || (nth [::] ks i \in take i ks).
Proof.
elim: ks seen i => //= k ks IH seen [_|i]; first by rewrite /= orbF.
by rewrite ltnS => lt_i; rewrite /= (IH (k :: seen)) // !in_cons -orbA orbCA.
Qed.

Lemma size_undup_cons k ks :
  size (undup (k :: ks)) = (size (undup [seq x <- ks | x != k])).+1.
Proof.
rewrite -[RHS]/(size (k :: undup [seq x <- ks | x != k])).
apply/perm_size/uniq_perm; first exact: undup_uniq.
  by rewrite /= undup_uniq mem_undup mem_filter eqxx.
by move=> x; rewrite mem_undup !in_cons mem_undup mem_filter; case: eqP.
Qed.

(* The rows marked by keep='first' and the distinct new keys add up to
   all rows. *)
Lemma count_duplicated_scan_first seen ks :
  bool_sum (duplicated_scan KeepFirst seen ks)
    + size (undup [seq k <- ks | k \notin seen]) = size ks.
Proof.
rewrite /bool_sum; elim: ks seen => //= k ks IH seen.
have eqf : [seq x <- ks | x \notin k :: seen]
           = [seq x <- [seq x <- ks | x \notin seen] | x != k].
  by rewrite -filter_predI; apply: eq_filter => x /=; rewrite in_cons negb_or.
case k_seen: (k \in seen) => /=.
  rewrite -(IH (k :: seen)) add1n addSn; congr (_ + size (undup _)).+1.
  apply: eq_filter => x; rewrite in_cons; case: eqP => // ->.
  by move: k_seen; case: (k \in seen).
by rewrite add0n -/(undup (k :: _)) size_undup_cons -eqf addnS IH.
Qed.

End Duplicated.

Section Masks.

Variables (df : DataFrame) (cols : seq string).

(* The Series has one entry per row, as boolean indexing requires. *)
Lemma size_is_duplicate : size (is_duplicate df cols) = len df.
Proof. by rewrite /is_duplicate size_duplicated_scan size_map. Qed.

Lemma is_duplicateE :
  is_duplicate df cols = [seq recurs df cols lr | lr <- rows df].
Proof.
rewrite /is_duplicate duplicated_scan_false /selection_keys -map_comp.
exact: eq_map.
Qed.

Lemma rows_duplicate :
  rows (getitem_mask df (is_duplicate df cols))
  = [seq lr <- rows df | recurs df cols lr].
Proof. by rewrite /= is_duplicateE -filter_mask. Qed.

Lemma rows_unique :
  rows (getitem_mask df (invert (is_duplicate df cols)))
  = [seq lr <- rows df | ~~ recurs df cols lr].
Proof. by rewrite /= is_duplicateE /invert -map_comp -filter_mask. Qed.

Lemma recursE lr :
  recurs df cols lr
  = (1 < size [seq x <- rows df | project df cols x.2 == project df cols lr.2]).
Proof. by rewrite /recurs /selection_keys count_map size_filter. Qed.

Lemma twin_recurs lr : lr \in rows df -> has_twin df cols lr -> recurs df cols lr.
Proof.
move=> lr_df /hasP[y y_df /andP[ne_y eq_y]]; rewrite recursE.
have /uniq_leq_size : uniq [:: lr; y].
  by rewrite /= inE andbT; apply: contraNneq ne_y => ->.
apply=> x; rewrite !inE mem_filter => /orP[] /eqP->; first by rewrite eqxx.
by rewrite eq_y.
Qed.

Lemma recurs_twin lr :
  uniq (row_labels df) -> lr \in rows df -> recurs df cols lr -> has_twin df cols lr.
Proof.
move=> uniq_df lr_df; rewrite recursE; apply: contraLR => /hasPn no_twin.
rewrite -leqNgt (@uniq_leq_size _ _ [:: lr]) //.
  exact/filter_uniq/(map_uniq uniq_df).
move=> x; rewrite mem_filter inE => /andP[eq_x x_df].
have := no_twin x x_df; rewrite eq_x andbT negbK => /eqP eq_label.
by rewrite (uniq_map_inj_in uniq_df x_df lr_df eq_label).
Qed.

Lemma recurs_has_twin lr :
  uniq (row_labels df) -> lr \in rows df ->
  recurs df cols lr = has_twin df cols lr.
Proof.
move=> uniq_df lr_df; apply/idP/idP; first exact: recurs_twin.
exact: twin_recurs.
Qed.

End Masks.

(* groupby accepts distinct names of columns of a frame whose columns are
   distinct. *)
Lemma groupby_keys_returns (g : DataFrame) (by_cols : seq string) :
  uniq (columns g) -> all (fun c => c \in columns g) by_cols ->
  groupby_keys g by_cols = Ret tt.
Proof.
move=> uniq_g; elim: by_cols => //= c cols IH /andP[c_g /IH ->].
by rewrite c_g (count_uniq_mem _ uniq_g) c_g.
Qed.

Section Classification.

Variables (w : Widgets) (df : DataFrame).

Let selected := w_selected_cols w.

Hypothesis selected_nonempty : selected != [::].
Hypothesis selected_uniq : uniq selected.
Hypothesis selected_exist : all (fun c => c \in columns df) selected.
Hypothesis run_pressed : w_run w.

(* Line 200 fails exactly when a selected column is named count. *)
Lemma duplicate_groups_outcome m :
  duplicate_groups df selected m =
  if "count"%string \in selected
  then Raise (Exn ValueError "cannot insert count, already exists")
  else Ret (sort_values_count_desc
              (groupby_size
                 (mkDataFrame selected [seq column_dtype df c | c <- selected]
                    [seq (lr.1, project df selected lr.2) | lr <- mask m (rows df)])
                 selected)).
Proof.
rewrite /duplicate_groups /getitem_cols /= selected_exist /= /groupby.
have -> : nilp selected = false by case: (selected) selected_nonempty.
rewrite groupby_keys_returns //=.
by rewrite /reset_index_count; case: ifP.
Qed.

Lemma duplicate_analysis_outcome :
  (duplicate_analysis w df).2 =
  analysis_outcome w (getitem_mask df (invert (is_duplicate df selected)))
    (getitem_mask df (is_duplicate df selected)).
Proof.
rewrite /analysis_outcome /duplicate_analysis !outcomeE /= -/selected.
have -> : nilp selected = false by case: (selected) selected_nonempty.
rewrite !outcomeE /= run_pressed !outcomeE /getitem_cols -/selected selected_exist /=.
set keyed := mkDataFrame _ _ _.
have -> : duplicated KeepFalse keyed = is_duplicate df selected.
  by rewrite /duplicated /is_duplicate /selection_keys /= -map_comp.
have info_ok b s : (when b (emit (Info s))).2 = Ret tt by case: b.
rewrite !outcomeE /= when_outcome; first by rewrite !outcomeE /= info_ok.
case: ifP => _; last by rewrite andbF.
rewrite andbT !outcomeE /= info_ok /= ?outcomeE duplicate_groups_outcome.
case: ifP => _ //=.
by rewrite ?outcomeE /= ?when_outcome.
Qed.

End Classification.

Lemma loaded_uniq_labels (df : DataFrame) : loaded df -> uniq (row_labels df).
Proof. by case/and4P=> _ _ _ /eqP->; exact: iota_uniq. Qed.

(* The example of the specification: on column A the row with A = 2 is
   unique, the three rows with A = 1 are duplicates, and the summary has
   the one group A = 1 with count 3. *)
Example example_table_loaded : loaded example_table.
Proof. by []. Qed.

Example example_classification :
  (duplicate_analysis example_run example_table).2
  = analysis_result example_run
      (mkDataFrame [:: "A"; "B"]%string [:: Int64; ObjectDtype]
         [:: (2, [:: VInt 2; VText "y"])])
      (mkDataFrame [:: "A"; "B"]%string [:: Int64; ObjectDtype]
         [:: (0, [:: VInt 1; VText "x"]); (1, [:: VInt 1; VText "x"]);
             (3, [:: VInt 1; VText "z"])]).
Proof. by vm_compute. Qed.

Example example_groups :
  duplicate_groups example_table [:: "A"%string]
    (is_duplicate example_table [:: "A"%string])
  = Ret [:: ([:: VInt 1], 3)].
Proof. by vm_compute. Qed.

Lemma shown_emit (B : Type) (e : ui_event) (k : unit -> M B) :
  (bind (emit e) k).1 = e :: (k tt).1.
Proof. by rewrite bind_shown. Qed.

Lemma shown_widget (A B : Type) kind label options (current : A) (k : A -> M B) :
  (bind (widget kind label options current) k).1
  = Input kind label options :: (k current).1.
Proof. by rewrite bind_shown. Qed.

Lemma shown_call (A B : Type) (a : A) (k : A -> M B) :
  (bind (call (Ret a)) k).1 = (k a).1.
Proof. by rewrite bind_shown. Qed.

(* The three figures of lines 175-181 are shown before the summary of line
   200 is built. *)
Lemma duplicate_analysis_metrics (w : Widgets) (df : DataFrame) :
  w_selected_cols w != [::] ->
  all (fun c => c \in columns df) (w_selected_cols w) ->
  w_run w ->
  take 3 (drop 8 (duplicate_analysis w df).1)
  = [:: Metric "Total des lignes" (len df);
        Metric "Lignes avec combinaisons uniques"
          (len (getitem_mask df (invert (is_duplicate df (w_selected_cols w)))));
        Metric "Lignes avec combinaisons dupliquées"
          (len (getitem_mask df (is_duplicate df (w_selected_cols w))))].
Proof.
move=> nonempty exist pressed.
rewrite /duplicate_analysis !(shown_emit, shown_widget).
have -> : nilp (w_selected_cols w) = false by case: (w_selected_cols w) nonempty.
rewrite !(shown_emit, shown_widget) pressed /getitem_cols exist.
rewrite !(shown_emit, shown_call) /= take0.
by rewrite /duplicated /is_duplicate /selection_keys /= -map_comp.
Qed.

(** C1. For a table whose row labels are distinct (every loaded table: the
    labels are 0..n-1), a selection of distinct existing columns that is
    not empty, and the analysis button pressed: the rows that lines 170-172
    place in duplicate_rows are the rows of the table for which some row
    with another label has the same projection onto the selection, and the
    rows placed in unique_rows are the others; so every member of a group
    of two or more, the first occurrence included, is a duplicate.  The run
    shows the numbers of rows of the two frames, and duplicate_analysis
    returns the frames, unless there are duplicate rows and a selected
    column is named count: then line 200 raises ValueError. *)
Theorem duplicate_iff_other_row_same_projection (w : Widgets) (df : DataFrame) :
  w_selected_cols w != [::] ->
  uniq (w_selected_cols w) ->
  all (fun c => c \in columns df) (w_selected_cols w) ->
  w_run w ->
  uniq (row_labels df) ->
  let unique_rows :=
    getitem_mask df (invert (is_duplicate df (w_selected_cols w))) in
  let duplicate_rows := getitem_mask df (is_duplicate df (w_selected_cols w)) in
  [/\ (duplicate_analysis w df).2 = analysis_outcome w unique_rows duplicate_rows,
      take 3 (drop 8 (duplicate_analysis w df).1)
        = [:: Metric "Total des lignes" (len df);
              Metric "Lignes avec combinaisons uniques" (len unique_rows);
              Metric "Lignes avec combinaisons dupliquées" (len duplicate_rows)]
    & forall lr : nat * row,
        ((lr \in rows duplicate_rows)
           = (lr \in rows df) && has_twin df (w_selected_cols w) lr)
        /\ ((lr \in rows unique_rows)
              = (lr \in rows df) && ~~ has_twin df (w_selected_cols w) lr)].
Proof.
move=> nonempty uniq_cols exist pressed uniq_df unique_rows duplicate_rows.
split; first exact: duplicate_analysis_outcome.
  exact: duplicate_analysis_metrics.
move=> lr; rewrite rows_duplicate rows_unique !mem_filter andbC [in X in _ /\ X]andbC.
by case lr_df: (lr \in rows df); rewrite //= recurs_has_twin.
Qed.

Lemma duplicate_iff_other_row_same_projection_witness :
  let unique_rows :=
    getitem_mask example_table (invert (is_duplicate example_table [:: "A"%string])) in
  let duplicate_rows :=
    getitem_mask example_table (is_duplicate example_table [:: "A"%string]) in
  [/\ (duplicate_analysis example_run example_table).2
        = analysis_outcome example_run unique_rows duplicate_rows,
      take 3 (drop 8 (duplicate_analysis example_run example_table).1)
        = [:: Metric "Total des lignes" 4;
              Metric "Lignes avec combinaisons uniques" (len unique_rows);
              Metric "Lignes avec combinaisons dupliquées" (len duplicate_rows)]
    & forall lr : nat * row,
        ((lr \in rows duplicate_rows)
           = (lr \in rows example_table) && has_twin example_table [:: "A"%string] lr)
        /\ ((lr \in rows unique_rows)
              = (lr \in rows example_table)
                && ~~ has_twin example_table [:: "A"%string] lr)].
Proof.
exact: (@duplicate_iff_other_row_same_projection example_run example_table
          isT isT isT isT isT).
Defined.

(** C2. Under the same conditions the frames unique_rows and
    duplicate_rows of lines 171-172 partition the rows of the table: their
    lengths add up to the length of the table, a label is in exactly one of
    the two when it is a label of the table and in neither otherwise, and
    together they hold the rows of the table, each as often as the table
    does.  duplicate_analysis returns them, unless there are duplicate rows
    and a selected column is named count (line 200 then raises). *)
Theorem unique_and_duplicate_rows_partition (w : Widgets) (df : DataFrame) :
  w_selected_cols w != [::] ->
  uniq (w_selected_cols w) ->
  all (fun c => c \in columns df) (w_selected_cols w) ->
  w_run w ->
  uniq (row_labels df) ->
  let unique_rows :=
    getitem_mask df (invert (is_duplicate df (w_selected_cols w))) in
  let duplicate_rows := getitem_mask df (is_duplicate df (w_selected_cols w)) in
  [/\ (duplicate_analysis w df).2 = analysis_outcome w unique_rows duplicate_rows,
      len unique_rows + len duplicate_rows = len df,
      forall l : nat,
        (l \in row_labels unique_rows) (+) (l \in row_labels duplicate_rows)
        = (l \in row_labels df)
    & perm_eq (rows unique_rows ++ rows duplicate_rows) (rows df)].
Proof.
move=> nonempty uniq_cols exist pressed uniq_df unique_rows duplicate_rows.
set cols := w_selected_cols w in unique_rows duplicate_rows *.
have perm_rows :
    perm_eq ([seq lr <- rows df | ~~ recurs df cols lr]
             ++ [seq lr <- rows df | recurs df cols lr]) (rows df).
  by rewrite perm_catC; exact/permPl/(perm_filterC (recurs df cols)).
split; first exact: duplicate_analysis_outcome.
- by rewrite /len rows_unique rows_duplicate -size_cat (perm_size perm_rows).
- move=> l; rewrite /row_labels rows_unique rows_duplicate.
  have uniq_cat : uniq ([seq lr.1 | lr <- rows df & ~~ recurs df cols lr]
                        ++ [seq lr.1 | lr <- rows df & recurs df cols lr]).
    by rewrite -map_cat (perm_uniq (perm_map _ perm_rows)).
  have := perm_mem (perm_map fst perm_rows) l; rewrite map_cat mem_cat => <-.
  move: uniq_cat; rewrite cat_uniq => /and3P[_ /hasPn disjoint _].
  case in_dup: (l \in [seq lr.1 | lr <- rows df & recurs df cols lr]).
    by rewrite (negbTE (disjoint l in_dup)).
  by rewrite addbF orbF.
- by rewrite rows_unique rows_duplicate.
Qed.

Lemma unique_and_duplicate_rows_partition_witness :
  let unique_rows :=
    getitem_mask example_table (invert (is_duplicate example_table [:: "A"%string])) in
  let duplicate_rows :=
    getitem_mask example_table (is_duplicate example_table [:: "A"%string]) in
  [/\ (duplicate_analysis example_run example_table).2
        = analysis_outcome example_run unique_rows duplicate_rows,
      len unique_rows + len duplicate_rows = 4,
      forall l : nat,
        (l \in row_labels unique_rows) (+) (l \in row_labels duplicate_rows)
        = (l \in [:: 0; 1; 2; 3])
    & perm_eq (rows unique_rows ++ rows duplicate_rows) (rows example_table)].
Proof.
exact: (@unique_and_duplicate_rows_partition example_run example_table
          isT isT isT isT isT).
Defined.



(** C7. Under the conditions of the classification the frames unique_rows
    and duplicate_rows of lines 171-172 keep the columns and dtypes of the
    table, all of them, and their rows are rows of the table, labels and
    cells unchanged, in the order of the table (each is a subsequence of
    the table's rows); no row of the table is dropped: the two frames
    together hold its rows, each as often as the table does.  The table is
    only read: lines 125-218 index it and copy the result.
    duplicate_analysis returns the two frames, unless there are duplicate
    rows and a selected column is named count (line 200 then raises). *)
Theorem outputs_keep_columns_and_order (w : Widgets) (df : DataFrame) :
  w_selected_cols w != [::] ->
  uniq (w_selected_cols w) ->
  all (fun c => c \in columns df) (w_selected_cols w) ->
  w_run w ->
  let unique_rows :=
    getitem_mask df (invert (is_duplicate df (w_selected_cols w))) in
  let duplicate_rows := getitem_mask df (is_duplicate df (w_selected_cols w)) in
  [/\ (duplicate_analysis w df).2 = analysis_outcome w unique_rows duplicate_rows,
      columns unique_rows = columns df /\ dtypes unique_rows = dtypes df,
      columns duplicate_rows = columns df /\ dtypes duplicate_rows = dtypes df,
      subseq (rows unique_rows) (rows df)
    & subseq (rows duplicate_rows) (rows df)]
  /\ perm_eq (rows unique_rows ++ rows duplicate_rows) (rows df).
Proof.
move=> nonempty uniq_cols exist pressed unique_rows duplicate_rows; split.
  by split=> //; [exact: duplicate_analysis_outcome | | ]; exact: mask_subseq.
rewrite rows_unique rows_duplicate perm_catC.
exact/permPl/(perm_filterC (recurs df (w_selected_cols w))).
Qed.

Lemma outputs_keep_columns_and_order_witness :
  let unique_rows :=
    getitem_mask example_table (invert (is_duplicate example_table [:: "A"%string])) in
  let duplicate_rows :=
    getitem_mask example_table (is_duplicate example_table [:: "A"%string]) in
  [/\ (duplicate_analysis example_run example_table).2
        = analysis_outcome example_run unique_rows duplicate_rows,
      columns unique_rows = [:: "A"; "B"]%string
      /\ dtypes unique_rows = [:: Int64; ObjectDtype],
      columns duplicate_rows = [:: "A"; "B"]%string
      /\ dtypes duplicate_rows = [:: Int64; ObjectDtype],
      subseq (rows unique_rows) (rows example_table)
    & subseq (rows duplicate_rows) (rows example_table)]
  /\ perm_eq (rows unique_rows ++ rows duplicate_rows) (rows example_table).
Proof.
exact: (@outputs_keep_columns_and_order example_run example_table isT isT isT isT).
Defined.

Section Groups.

Variables (df : DataFrame) (cols : seq string).

Hypothesis cols_exist : all (fun c => c \in columns df) cols.

Lemma duplicated_keyed keyed :
  getitem_cols df cols = Ret keyed ->
  duplicated KeepFalse keyed = is_duplicate df cols.
Proof.
rewrite /getitem_cols cols_exist => -[<-].
by rewrite /duplicated /is_duplicate /selection_keys /= -map_comp.
Qed.

(* Projecting a projection again changes nothing. *)
Lemma project_project g_dtypes g_rows r :
  project (mkDataFrame cols g_dtypes g_rows) cols (project df cols r)
  = project df cols r.
Proof.
apply/eq_in_map => c c_cols; rewrite /cell /=.
by rewrite (nth_map EmptyString) ?index_mem // nth_index.
Qed.

(* The sizes of the groups of df[m][cols]. *)
Lemma groupby_sizeE m g_dtypes :
  groupby_size
    (mkDataFrame cols g_dtypes
       [seq (lr.1, project df cols lr.2) | lr <- mask m (rows df)]) cols
  = [seq (k, count_mem k (grouped_keys df cols m))
       | k <- sort key_leb (undup (grouped_keys df cols m))].
Proof.
rewrite /groupby_size /= -map_comp /grouped_keys.
rewrite (@eq_map _ _ _ (fun lr : nat * row => project df cols lr.2)) // => lr /=.
exact: (project_project _ _ lr.2).
Qed.

(* The summary, when line 200 returns one. *)
Lemma duplicate_groups_inv m groups :
  duplicate_groups df cols m = Ret groups ->
  groups = sort_values_count_desc
             [seq (k, count_mem k (grouped_keys df cols m))
                | k <- sort key_leb (undup (grouped_keys df cols m))].
Proof.
rewrite /duplicate_groups /getitem_cols /= cols_exist /=.
case: (groupby _ _) => [[]|e] //=; rewrite /reset_index_count.
by case: ifP => //= _ [<-]; rewrite groupby_sizeE.
Qed.

(* Line 200 returns a summary unless a selected column is named count. *)
Lemma duplicate_groupsE m :
  cols != [::] -> uniq cols ->
  duplicate_groups df cols m =
  if "count"%string \in cols
  then Raise (Exn ValueError "cannot insert count, already exists")
  else Ret (sort_values_count_desc
              [seq (k, count_mem k (grouped_keys df cols m))
                 | k <- sort key_leb (undup (grouped_keys df cols m))]).
Proof.
move=> nonempty uniq_cols.
rewrite /duplicate_groups /getitem_cols /= cols_exist /= /groupby.
have -> : nilp cols = false by case: (cols) nonempty.
rewrite groupby_keys_returns //= /reset_index_count.
by case: ifP => //= _; rewrite groupby_sizeE.
Qed.

End Groups.

Lemma sumn_count_mem (T : eqType) (u s : seq T) :
  uniq u -> sumn [seq count_mem k s | k <- u] = count (mem u) s.
Proof.
elim: u => [_|k u IH /= /andP[k_u /IH->]]; first by rewrite /= count_pred0.
have -> : count (mem (k :: u)) s = count (predU (pred1 k) (mem u)) s.
  by apply: eq_count => x; rewrite inE.
have disjoint : count (predI (pred1 k) (mem u)) s = 0.
  rewrite -(@count_pred0 _ s); apply: eq_count => x /=.
  by case: eqP => // ->; rewrite (negbTE k_u).
by rewrite -count_predUI disjoint addn0.
Qed.

Lemma sumn_count_mem_undup (T : eqType) (s : seq T) :
  sumn [seq count_mem k s | k <- undup s] = size s.
Proof.
rewrite sumn_count_mem ?undup_uniq //; apply/eqP; rewrite -all_count.
by apply/allP => x x_s; rewrite -(mem_undup s) in x_s.
Qed.

Lemma count_desc_total : total (fun a b : row * nat => b.2 <= a.2).
Proof. by move=> a b; exact: leq_total. Qed.

(* The counts of the summary add up to the marked rows whose key holds no
   missing value. *)
Lemma count_total_duplicate_groups (df : DataFrame) (cols : seq string) m groups :
  all (fun c => c \in columns df) cols ->
  duplicate_groups df cols m = Ret groups ->
  count_total groups
  = count (fun lr : nat * row => ~~ has isna (project df cols lr.2))
          (mask m (rows df)).
Proof.
move=> cols_exist /(duplicate_groups_inv cols_exist) ->.
rewrite /count_total /sort_values_count_desc.
rewrite (perm_sumn (perm_map _ (permEl (perm_sort _ _)))) -map_comp.
rewrite (@eq_map _ _ _ (fun k => count_mem k (grouped_keys df cols m))) //.
rewrite (perm_sumn (perm_map _ (permEl (perm_sort _ _)))) sumn_count_mem_undup.
by rewrite /grouped_keys size_filter count_map.
Qed.

(* When no selected cell of a marked row is missing, the counts add up to
   the marked rows. *)
Lemma count_total_without_missing (df : DataFrame) (cols : seq string) m groups :
  all (fun c => c \in columns df) cols ->
  all (fun lr : nat * row => ~~ has isna (project df cols lr.2))
      (mask m (rows df)) ->
  duplicate_groups df cols m = Ret groups ->
  count_total groups = len (getitem_mask df m).
Proof.
move=> cols_exist no_missing /(count_total_duplicate_groups cols_exist) ->.
by apply/eqP; rewrite -all_count.
Qed.

(* On column A the keys in ascending order are 1 and 2; the group of 2 is
   the larger one and comes first. *)
Example two_groups_summary :
  duplicate_groups two_groups_table [:: "A"%string]
    (is_duplicate two_groups_table [:: "A"%string])
  = Ret [:: ([:: VInt 2], 3); ([:: VInt 1], 2)].
Proof. by vm_compute. Qed.

(** C6. For a selection of distinct existing columns that is not empty and
    holds no column named count, line 200-201 return a summary: it lists
    the combinations of the duplicate rows that hold no missing value, each
    once with its number of rows, in descending order of count: of two
    consecutive entries the later one never has the larger count.  When a
    selected column is named count, line 200 raises ValueError and there is
    no summary. *)
Theorem duplicate_groups_sorted_descending (df : DataFrame) (cols : seq string) :
  cols != [::] ->
  uniq cols ->
  all (fun c => c \in columns df) cols ->
  let keys := grouped_keys df cols (is_duplicate df cols) in
  if "count"%string \in cols then
    duplicate_groups df cols (is_duplicate df cols)
    = Raise (Exn ValueError "cannot insert count, already exists")
  else
    exists groups,
      [/\ duplicate_groups df cols (is_duplicate df cols) = Ret groups,
          perm_eq groups [seq (k, count_mem k keys) | k <- undup keys]
        & forall i, i.+1 < size groups ->
            (nth ([::], 0) groups i.+1).2 <= (nth ([::], 0) groups i).2].
Proof.
move=> nonempty uniq_cols cols_exist keys; rewrite duplicate_groupsE //.
case: (_ \in cols) => //; eexists; split; first by [].
  rewrite /sort_values_count_desc perm_sort.
  by apply: perm_map; rewrite perm_sort.
move=> i lt_i; rewrite /sort_values_count_desc in lt_i *.
by have /sortedP := sort_sorted count_desc_total
     [seq (k, count_mem k keys) | k <- sort key_leb (undup keys)];
   apply.
Qed.

Lemma duplicate_groups_sorted_descending_witness :
  let keys :=
    grouped_keys two_groups_table [:: "A"%string]
      (is_duplicate two_groups_table [:: "A"%string]) in
  exists groups,
    [/\ duplicate_groups two_groups_table [:: "A"%string]
          (is_duplicate two_groups_table [:: "A"%string]) = Ret groups,
        perm_eq groups [seq (k, count_mem k keys) | k <- undup keys]
      & forall i, i.+1 < size groups ->
          (nth ([::], 0) groups i.+1).2 <= (nth ([::], 0) groups i).2].
Proof.
exact: (@duplicate_groups_sorted_descending two_groups_table [:: "A"%string]
          isT isT isT).
Defined.

(** C4, on the table whose two rows both miss their value in column A and
    the selection A: both rows are returned as duplicate rows and the page
    shows 2 rows with duplicated combinations, while the summary of the
    duplicate groups, shown last, is empty: its counts add up to 0 and not
    to 2. *)
Theorem duplicate_groups_omit_missing_keys :
  exists unique_rows duplicate_rows groups,
    [/\ (duplicate_analysis example_run missing_table).2
          = analysis_result example_run unique_rows duplicate_rows,
        len duplicate_rows = 2
      & nth (Header EmptyString) (duplicate_analysis example_run missing_table).1 10
          = Metric "Lignes avec combinaisons dupliquées" 2]
    /\ [/\ duplicate_groups missing_table [:: "A"%string]
              (is_duplicate missing_table [:: "A"%string]) = Ret groups,
            last (Header EmptyString)
                 (duplicate_analysis example_run missing_table).1
              = Groups (take 10 groups)
          & count_total groups = 0].
Proof.
exists (mkDataFrame (columns missing_table) (dtypes missing_table) [::]).
by exists missing_table, [::]; split; split; vm_compute.
Qed.

Lemma missing_details_return (n : nat) (missing_data : seq (string * nat)) :
  (foldr (fun cn k => emit (MissingDetail cn.1 cn.2 n) ;; k) (ret tt)
         missing_data).2 = Ret tt.
Proof. by elim: missing_data => //= cn s IH; rewrite !outcomeE. Qed.

(* The overview shows the count as its fifth event. *)
Lemma data_overview_shows_duplicated_sum (df : DataFrame) :
  nth (Header EmptyString) (data_overview df).1 4
  = Metric "Lignes dupliquées" (duplicated_sum df).
Proof. by []. Qed.

(* The anomaly summary shows it under "Analyse des doublons". *)
Lemma anomaly_analysis_shows_duplicated_sum (df : DataFrame) :
  exists before after,
    (anomaly_analysis df).1
    = before ++ [:: Subheader "Analyse des doublons";
                    Metric "Nombre total de doublons" (duplicated_sum df)]
             ++ after.
Proof.
rewrite /anomaly_analysis /duplicated_sum.
set block := (if _ then _ else _).
have block_returns : block.2 = Ret tt.
  by rewrite /block; case: ifP => _ //; rewrite !outcomeE missing_details_return.
exists ([:: Header "🚨 Analyse des Anomalies";
           Subheader "Valeurs manquantes par colonne"] ++ block.1).
case: block block_returns => shown [[]|] //= _.
rewrite /bind /emit /when /ret /=.
by case: ifP => _; eexists.
Qed.

(** C3, as amended.  The count that the overview and the anomaly summary
    show is df.duplicated().sum() with keep='first': a row is counted when
    an earlier row is identical to it in all columns, so of each group of
    identical rows every member but the first is counted, and the count
    and the number of distinct rows add up to the number of rows. *)
Theorem whole_row_count_is_repeats_after_first (df : DataFrame) :
  let keys := [seq lr.2 | lr <- rows df] in
  [/\ nth (Header EmptyString) (data_overview df).1 4
        = Metric "Lignes dupliquées" (duplicated_sum df),
      exists before after,
        (anomaly_analysis df).1
        = before ++ [:: Subheader "Analyse des doublons";
                        Metric "Nombre total de doublons" (duplicated_sum df)]
                 ++ after,
      duplicated_sum df + size (undup keys) = len df
    & forall i, i < len df ->
        nth false (duplicated KeepFirst df) i = (nth [::] keys i \in take i keys)].
Proof.
split=> //; first exact: anomaly_analysis_shows_duplicated_sum.
- rewrite /duplicated_sum /duplicated /len -[RHS](size_map snd).
  rewrite -[RHS](count_duplicated_scan_first [::]); congr (_ + size (undup _)).
  by rewrite (@eq_filter _ _ predT) ?filter_predT.
- move=> i lt_i; rewrite /duplicated nth_duplicated_scan_first ?size_map //.
Qed.

(* On the table of the example rows 0 and 1 are identical: the overview
   shows 1, and two rows have a row identical to them. *)
Lemma whole_row_count_counterexample :
  ~ (nth (Header EmptyString) (data_overview example_table).1 4
     = Metric "Lignes dupliquées"
         (count (recurs example_table (columns example_table))
                (rows example_table))).
Proof. by vm_compute => -[]. Qed.

Lemma data_overview_returns (df : DataFrame) : (data_overview df).2 = Ret tt.
Proof. by []. Qed.

Lemma anomaly_analysis_returns (df : DataFrame) : (anomaly_analysis df).2 = Ret tt.
Proof.
rewrite /anomaly_analysis !outcomeE.
set block := (if _ then _ else _).
have -> : block.2 = Ret tt.
  by rewrite /block; case: ifP => _ //; rewrite !outcomeE missing_details_return.
by rewrite /when; case: ifP.
Qed.

(** C8, on any table that was loaded and a run with no column selected.
    duplicate_analysis shows its warning and returns the three-component
    tuple (None, None, False) without classifying anything; main, which
    unpacks tuples of five or of two components, then stops on
    ValueError: nothing is offered for download, and the visualizations
    that follow are not shown. *)
Theorem empty_selection_stops_the_run
    (read_csv : encoding -> UploadedFile -> outcome DataFrame * UploadedFile)
    (read_excel : UploadedFile -> outcome DataFrame * UploadedFile)
    (w : Widgets) (f f' : UploadedFile) (df : DataFrame) :
  load_data read_csv read_excel f = ((Some df, None), f') ->
  w_selected_cols w = [::] ->
  duplicate_analysis w df
    = (selection_warning df, Ret [:: PyNone; PyNone; PyBool false])
  /\ main read_csv read_excel w (Some f)
     = (Success "✅ Fichier chargé avec succès!"
          :: (data_overview df).1 ++ (anomaly_analysis df).1
          ++ selection_warning df,
        Raise (Exn ValueError "too many values to unpack (expected 2)")).
Proof.
move=> loaded_df no_selection.
have analysis : duplicate_analysis w df
    = (selection_warning df, Ret [:: PyNone; PyNone; PyBool false]).
  by rewrite /duplicate_analysis no_selection.
split=> //; rewrite /main loaded_df /= analysis.
have := anomaly_analysis_returns df.
by case: (anomaly_analysis df) => shown [[]|].
Qed.

Lemma empty_selection_stops_the_run_witness :
  duplicate_analysis nothing_selected example_table
    = (selection_warning example_table, Ret [:: PyNone; PyNone; PyBool false])
  /\ main (pd_read_csv example_parser example_blocks)
       (pd_read_excel (example_parser UTF8))
       nothing_selected (Some example_upload)
     = (Success "✅ Fichier chargé avec succès!"
          :: (data_overview example_table).1 ++ (anomaly_analysis example_table).1
          ++ selection_warning example_table,
        Raise (Exn ValueError "too many values to unpack (expected 2)")).
Proof.
exact: (@empty_selection_stops_the_run
          (pd_read_csv example_parser example_blocks)
          (pd_read_excel (example_parser UTF8))
          nothing_selected example_upload
          (mkUploadedFile "donnees.csv" (content example_upload) 20)
          example_table erefl erefl).
Defined.

Lemma is_numericE (d : dtype) (vals : seq value) :
  is_numeric d vals = ((d == Int64) || (d == Float64)) && (10 < nunique vals).
Proof. by case: d. Qed.

(** C10. For a table that is not empty and a selected column of the table
    (its name not the empty string), the select boxes that visualizations
    shows are the column choice, the palette choice and one choice of chart
    type: Histogramme / Box Plot / Violin Plot when the dtype of the column
    is int64 or float64 and nunique() of the column exceeds 10, Bar Chart /
    Pie Chart in every other case. *)
Theorem numeric_charts_iff_numeric_dtype_and_more_than_10_values
    (w : Widgets) (df : DataFrame) :
  ~~ df_empty df ->
  w_selected_col w \in columns df ->
  w_selected_col w != EmptyString ->
  let d := column_dtype df (w_selected_col w) in
  let vals := column_values df (w_selected_col w) in
  selectboxes (visualizations w df).1
  = [:: ("Sélectionnez une colonne à visualiser:"%string, columns df);
        ("Palette de couleurs:"%string, color_palette_names);
        if ((d == Int64) || (d == Float64)) && (10 < nunique vals)
        then ("Type de graphique pour variable numérique:"%string,
              numeric_graph_types)
        else ("Type de graphique pour variable catégorielle:"%string,
              categorical_graph_types)].
Proof.
move=> not_empty col_df col_named /=; rewrite -is_numericE.
rewrite /visualizations (negbTE not_empty) /bind /emit /widget /ret /=.
rewrite col_named /call /getitem_col col_df /=.
case: is_numeric => /=.
  by do 3?[case: ifP => _ //=].
case: ifP => _ /=; first by rewrite /px_bar; case: nilp.
by do 2?[case: ifP => _ //=].
Qed.

Lemma numeric_charts_iff_numeric_dtype_and_more_than_10_values_witness :
  selectboxes (visualizations chart_of_n twelve_values).1
  = [:: ("Sélectionnez une colonne à visualiser:"%string, [:: "n"%string]);
        ("Palette de couleurs:"%string, color_palette_names);
        ("Type de graphique pour variable numérique:"%string,
         numeric_graph_types)].
Proof.
exact: (@numeric_charts_iff_numeric_dtype_and_more_than_10_values
          chart_of_n twelve_values isT isT isT).
Defined.

Section Load_csv.

Variable read_csv : encoding -> UploadedFile -> outcome DataFrame * UploadedFile.
Variable read_excel : UploadedFile -> outcome DataFrame * UploadedFile.
Variable f : UploadedFile.

Hypothesis csv : file_extension f = "csv"%string.

(* The first attempt decodes as UTF-8; when it succeeds nothing else is
   read. *)
Lemma load_data_csv_utf8 df f1 :
  read_csv UTF8 f = (Ret df, f1) ->
  load_data read_csv read_excel f = ((Some df, None), f1).
Proof. by rewrite /load_data csv /= => ->. Qed.

(* On a decode error the same file object, in the state in which the
   first attempt left it, is read again as Latin-1. *)
Lemma load_data_csv_retry e f1 :
  read_csv UTF8 f = (Raise e, f1) -> exn_cls e = UnicodeDecodeError ->
  load_data read_csv read_excel f =
  match read_csv Latin1 f1 with
  | (Ret df, f2) => ((Some df, None), f2)
  | (Raise e', f2) =>
      ((None, Some ("Erreur d'encodage: " ++ exn_msg e')%string), f2)
  end.
Proof.
rewrite /load_data csv /= => -> -> /=.
by case: (read_csv Latin1 f1) => -[df|e'] f2.
Qed.

(* Any other exception is reported without a second attempt. *)
Lemma load_data_csv_error e f1 :
  read_csv UTF8 f = (Raise e, f1) -> exn_cls e <> UnicodeDecodeError ->
  load_data read_csv read_excel f =
  ((None, Some ("Erreur lors du chargement: " ++ exn_msg e)%string), f1).
Proof.
rewrite /load_data csv /= => ->.
by case: (exn_cls e).
Qed.

End Load_csv.

Example extension_of_upper_case_name :
  file_extension (mkUploadedFile "Rapport.2024.CSV" [::] 0) = "csv"%string.
Proof. by vm_compute. Qed.

(* "café" in UTF-8 is 63 61 66 C3 A9; in Latin-1 it is 63 61 66 E9. *)
Example utf8_accepts_cafe : utf8_valid [:: 99; 97; 102; 195; 169].
Proof. by []. Qed.

Example utf8_rejects_latin1_cafe : ~~ utf8_valid [:: 99; 97; 102; 233].
Proof. by []. Qed.

(** C9, on the upload noms.csv, nine bytes that are text in Latin-1 and
    not in UTF-8; they fit in one read block, so the reader for larger
    streams plays no part.  The UTF-8 attempt reads the stream to its end and
    raises UnicodeDecodeError; the Latin-1 attempt is given the same
    stream, which nothing has rewound, finds no byte left and raises
    EmptyDataError; load_data returns the error message, whatever the
    parser would make of the nine bytes. *)
Theorem latin1_retry_reads_exhausted_stream
    (parse_csv : encoding -> seq Byte.byte -> outcome DataFrame)
    (parse_excel : seq Byte.byte -> outcome DataFrame)
    (read_csv_in_blocks :
       encoding -> UploadedFile -> outcome DataFrame * UploadedFile) :
  [/\ file_extension latin1_upload = "csv"%string,
      decodes UTF8 (content latin1_upload) = false,
      decodes Latin1 (content latin1_upload) = true
    & load_data (pd_read_csv parse_csv read_csv_in_blocks)
        (pd_read_excel parse_excel) latin1_upload
      = ((None, Some "Erreur d'encodage: No columns to parse from file"%string),
         mkUploadedFile "noms.csv" (content latin1_upload) 9)].
Proof. by split; vm_compute. Qed.

(* ===================================================================== *)
(* Further properties                                                    *)
(* ===================================================================== *)

Section Load_data_shape.

Variable read_csv : encoding -> UploadedFile -> outcome DataFrame * UploadedFile.
Variable read_excel : UploadedFile -> outcome DataFrame * UploadedFile.

(* The two shapes of the pair that load_data returns. *)
Lemma load_data_cases (f : UploadedFile) :
  (exists df, (load_data read_csv read_excel f).1 = (Some df, None))
  \/ (exists msg, (load_data read_csv read_excel f).1 = (None, Some msg)
                  /\ is_error (Some msg)).
Proof.
rewrite /load_data.
case: (if _ then _ else _) => -[df|e] f1 /=; first by left; exists df.
case: (exn_cls e); try by right; eexists.
by case: (read_csv Latin1 f1) => -[df|e'] f2 /=; [left; exists df | right; eexists].
Qed.

End Load_data_shape.

(** X1. Whatever the readers do, load_data returns either a table and no
    message or no table and a message, and the message is never empty: the
    test `if error:` of main holds exactly when there is no table. *)
Theorem load_data_returns_table_xor_message
    (read_csv : encoding -> UploadedFile -> outcome DataFrame * UploadedFile)
    (read_excel : UploadedFile -> outcome DataFrame * UploadedFile)
    (f : UploadedFile) :
  let: (df, error) := (load_data read_csv read_excel f).1 in
  isSome df = ~~ isSome error /\ is_error error = ~~ isSome df.
Proof.
case: (load_data_cases read_csv read_excel f) => [[df ->] //|[msg [-> msg_ok]]].
by rewrite msg_ok.
Qed.

(** X2. For a file whose extension is neither xlsx nor csv, load_data calls
    no reader: it leaves the stream as it was and returns a message that
    starts with "Erreur lors du chargement: ", the same for all readers. *)
Theorem load_data_other_extension_reads_nothing (f : UploadedFile) :
  file_extension f != "xlsx"%string ->
  file_extension f != "csv"%string ->
  exists msg : string,
    forall (read_csv : encoding -> UploadedFile -> outcome DataFrame * UploadedFile)
           (read_excel : UploadedFile -> outcome DataFrame * UploadedFile),
      load_data read_csv read_excel f
      = ((None, Some ("Erreur lors du chargement: " ++ msg)%string), f).
Proof.
move=> /negbTE not_xlsx /negbTE not_csv; eexists => read_csv read_excel.
by rewrite /load_data not_xlsx not_csv.
Qed.

Lemma load_data_other_extension_reads_nothing_witness :
  exists msg : string,
    forall (read_csv : encoding -> UploadedFile -> outcome DataFrame * UploadedFile)
           (read_excel : UploadedFile -> outcome DataFrame * UploadedFile),
      load_data read_csv read_excel (mkUploadedFile "notes.txt" [:: Byte.x41] 0)
      = ((None, Some ("Erreur lors du chargement: " ++ msg)%string),
         mkUploadedFile "notes.txt" [:: Byte.x41] 0).
Proof.
exact: (@load_data_other_extension_reads_nothing
          (mkUploadedFile "notes.txt" [:: Byte.x41] 0) isT isT).
Defined.

Section Split.

Variable sep : ascii.

Lemma split_free (s : string) : free_of sep s -> split sep s = [:: s].
Proof.
elim: s => //= c s IH /andP[not_sep free_s].
by rewrite (negbTE not_sep) IH.
Qed.

Lemma size_split_gt0 (s : string) : 0 < size (split sep s).
Proof. by elim: s => //= c s IH; case: ifP. Qed.

Lemma size_split_append (s e : string) :
  1 < size (split sep (s ++ String sep e)).
Proof.
elim: s => [|c s IH] /=; first by rewrite Ascii.eqb_refl /= ltnS size_split_gt0.
by case: ifP => _ //=; case: (split sep _) IH => [|x [|y l]].
Qed.

(* The last segment is what follows the last separator. *)
Lemma last_split_append (s e : string) :
  free_of sep e ->
  last EmptyString (split sep (s ++ String sep e)) = e.
Proof.
move=> free_e; elim: s => [|c s IH] /=.
  by rewrite Ascii.eqb_refl /= split_free.
have := size_split_append s e.
by case: ifP => _ //=; case: (split sep _) IH => [|x [|y l]].
Qed.

End Split.

(** X3. The extension that load_data tests is what follows the last dot of
    the file name, in lower case: for a name base.ext whose ext holds no
    dot and only ASCII characters it is ext with its letters A-Z lowered,
    so .CSV and .Xlsx are taken like .csv and .xlsx. *)
Theorem file_extension_after_last_dot
    (base ext : string) (bytes : seq Byte.byte) (pos : nat) :
  free_of "." ext ->
  ascii_only ext ->
  file_extension (mkUploadedFile (base ++ String "." ext) bytes pos) = lower ext.
Proof. by move=> free_ext _; rewrite /file_extension /= last_split_append. Qed.

Lemma file_extension_after_last_dot_witness :
  file_extension (mkUploadedFile ("Rapport.2024" ++ String "." "CSV") [::] 0)
  = "csv"%string.
Proof.
exact: (@file_extension_after_last_dot "Rapport.2024" "CSV" [::] 0 isT isT).
Defined.

(** X4. With the reader of pandas, a csv upload whose unread bytes fit in
    one read block, are not empty and are not UTF-8 text never loads: the
    UTF-8 attempt consumes the stream and raises the decode error, the
    Latin-1 attempt finds the stream at its end, and load_data returns the
    message of the empty read, whatever the parser. *)
Theorem invalid_utf8_upload_never_loads
    (parse_csv : encoding -> seq Byte.byte -> outcome DataFrame)
    (parse_excel : seq Byte.byte -> outcome DataFrame)
    (read_csv_in_blocks :
       encoding -> UploadedFile -> outcome DataFrame * UploadedFile)
    (f : UploadedFile) :
  file_extension f = "csv"%string ->
  within_one_block f ->
  ~~ nilp (remaining f) ->
  ~~ decodes UTF8 (remaining f) ->
  load_data (pd_read_csv parse_csv read_csv_in_blocks) (pd_read_excel parse_excel) f
  = ((None, Some "Erreur d'encodage: No columns to parse from file"%string),
     exhausted f).
Proof.
rewrite /remaining /exhausted /decodes.
move=> csv one_block /negbTE not_empty /negbTE not_utf8.
rewrite /load_data csv /= /pd_read_csv one_block /read_to_end /=.
have -> : within_one_block (mkUploadedFile (name f) (content f) (size (content f))).
  by rewrite /within_one_block /= drop_size.
by rewrite not_empty not_utf8 /= drop_size.
Qed.

Lemma invalid_utf8_upload_never_loads_witness :
  load_data (pd_read_csv example_parser example_blocks)
    (pd_read_excel (example_parser UTF8)) latin1_upload
  = ((None, Some "Erreur d'encodage: No columns to parse from file"%string),
     exhausted latin1_upload).
Proof.
exact: (@invalid_utf8_upload_never_loads example_parser (example_parser UTF8)
          example_blocks latin1_upload erefl isT isT isT).
Defined.

(** X5. With the reader of pandas, a csv upload whose unread bytes fit in
    one read block, are not empty and are UTF-8 text is parsed once, as
    UTF-8: the table of the parser is returned, and an exception of the
    parser other than a decode error becomes the message "Erreur lors du
    chargement". *)
Theorem valid_utf8_upload_is_parsed_once
    (parse_csv : encoding -> seq Byte.byte -> outcome DataFrame)
    (parse_excel : seq Byte.byte -> outcome DataFrame)
    (read_csv_in_blocks :
       encoding -> UploadedFile -> outcome DataFrame * UploadedFile)
    (f : UploadedFile) :
  file_extension f = "csv"%string ->
  within_one_block f ->
  ~~ nilp (remaining f) ->
  decodes UTF8 (remaining f) ->
  load_data (pd_read_csv parse_csv read_csv_in_blocks) (pd_read_excel parse_excel) f
  = match parse_csv UTF8 (remaining f) with
    | Ret df => ((Some df, None), exhausted f)
    | Raise e =>
        if exn_cls e is UnicodeDecodeError
        then ((None, Some "Erreur d'encodage: No columns to parse from file"%string),
              exhausted f)
        else ((None, Some ("Erreur lors du chargement: " ++ exn_msg e)%string),
              exhausted f)
    end.
Proof.
rewrite /remaining /exhausted /decodes => csv one_block /negbTE not_empty utf8.
rewrite /load_data csv /= /pd_read_csv one_block /read_to_end /=.
have -> : within_one_block (mkUploadedFile (name f) (content f) (size (content f))).
  by rewrite /within_one_block /= drop_size.
rewrite not_empty utf8; case: (parse_csv UTF8 _) => [df|e] //=.
by case: (exn_cls e) => //=; rewrite drop_size.
Qed.

Lemma valid_utf8_upload_is_parsed_once_witness :
  load_data (pd_read_csv example_parser example_blocks)
    (pd_read_excel (example_parser UTF8)) example_upload
  = ((Some example_table, None), exhausted example_upload).
Proof.
exact: (@valid_utf8_upload_is_parsed_once example_parser (example_parser UTF8)
          example_blocks example_upload erefl isT isT isT).
Defined.

(** X6. The tuple that duplicate_analysis returns has three components
    when no column is selected and five in every other case; it never has
    the two components that the second branch of main unpacks. *)
Theorem duplicate_analysis_tuple_size
    (w : Widgets) (df : DataFrame) (result : seq pyval) :
  (duplicate_analysis w df).2 = Ret result ->
  size result = if nilp (w_selected_cols w) then 3 else 5.
Proof.
case selected: (w_selected_cols w) => [|c cols] /=.
  by rewrite /duplicate_analysis selected !outcomeE /= => -[<-].
case pressed: (w_run w); last first.
  by rewrite /duplicate_analysis selected !outcomeE /= pressed !outcomeE => -[<-].
rewrite /duplicate_analysis !outcomeE /= selected /= !outcomeE /= pressed.
rewrite !outcomeE; case: (getitem_cols df _) => [keyed|e] //.
rewrite !outcomeE /=; case: (when _ _).2 => [[]|e] //.
by case: (X in match X with Ret _ => _ | Raise _ => _ end) => [[]|e] // [<-].
Qed.

Lemma duplicate_analysis_tuple_size_witness :
  (duplicate_analysis nothing_selected example_table).2
    = Ret [:: PyNone; PyNone; PyBool false]
  /\ size [:: PyNone; PyNone; PyBool false] = 3.
Proof.
split; first by [].
exact: (@duplicate_analysis_tuple_size nothing_selected example_table
          [:: PyNone; PyNone; PyBool false] erefl).
Defined.

Lemma duplicate_analysis_not_run (w : Widgets) (df : DataFrame) :
  w_selected_cols w != [::] -> ~~ w_run w ->
  (duplicate_analysis w df).2
  = Ret [:: PyNone; PyNone; PyBool false; PyNone; PyNone].
Proof.
move=> nonempty /negbTE not_run; rewrite /duplicate_analysis !outcomeE /=.
have -> : nilp (w_selected_cols w) = false by case: (w_selected_cols w) nonempty.
by rewrite !outcomeE /= not_run.
Qed.

Lemma bind_returns (A B : Type) (m : M A) (k : A -> M B) (a : A) :
  m.2 = Ret a -> bind m k = (m.1 ++ (k a).1, (k a).2).
Proof. by case: m => shown o /= ->; rewrite /bind; case: (k a). Qed.

(** X7. When the table has loaded and at least one column is selected, a
    run in which the analysis button is not pressed goes through the
    overview, the anomaly summary and the widgets of the analysis, offers
    no download and reaches the visualizations: it ends as they end. *)
Theorem unpressed_run_reaches_visualizations
    (read_csv : encoding -> UploadedFile -> outcome DataFrame * UploadedFile)
    (read_excel : UploadedFile -> outcome DataFrame * UploadedFile)
    (w : Widgets) (f f' : UploadedFile) (df : DataFrame) :
  load_data read_csv read_excel f = ((Some df, None), f') ->
  w_selected_cols w != [::] ->
  ~~ w_run w ->
  main read_csv read_excel w (Some f)
  = (Success "✅ Fichier chargé avec succès!"
       :: (data_overview df).1 ++ (anomaly_analysis df).1
       ++ (duplicate_analysis w df).1 ++ (visualizations w df).1,
     (visualizations w df).2).
Proof.
move=> loaded_df nonempty not_run.
rewrite /main loaded_df; cbv iota beta; rewrite [is_error None]/=.
rewrite (bind_returns _ (emit_outcome _)) [(emit _).1]/=.
rewrite (bind_returns _ (data_overview_returns df)).
rewrite (bind_returns _ (anomaly_analysis_returns df)).
rewrite (bind_returns _ (duplicate_analysis_not_run df nonempty not_run)).
have -> : download_section w [:: PyNone; PyNone; PyBool false; PyNone; PyNone]
          = ([::], Ret tt) by [].
by rewrite [size _ == 5]/= (@bind_returns _ _ _ _ tt) //= -!catA.
Qed.

Lemma unpressed_run_reaches_visualizations_witness :
  main (pd_read_csv example_parser example_blocks)
    (pd_read_excel (example_parser UTF8)) select_A_only (Some example_upload)
  = (Success "✅ Fichier chargé avec succès!"
       :: (data_overview example_table).1 ++ (anomaly_analysis example_table).1
       ++ (duplicate_analysis select_A_only example_table).1
       ++ (visualizations select_A_only example_table).1,
     (visualizations select_A_only example_table).2).
Proof.
exact: (@unpressed_run_reaches_visualizations
          (pd_read_csv example_parser example_blocks)
          (pd_read_excel (example_parser UTF8))
          select_A_only example_upload (exhausted example_upload) example_table
          erefl isT isT).
Defined.

(** X8. When load_data returns no table, main shows the message of
    load_data behind "Erreur lors du chargement du fichier: " and nothing
    else: no overview, no analysis, no chart. *)
Theorem main_shows_only_the_load_error
    (read_csv : encoding -> UploadedFile -> outcome DataFrame * UploadedFile)
    (read_excel : UploadedFile -> outcome DataFrame * UploadedFile)
    (w : Widgets) (f : UploadedFile) :
  ~~ isSome (load_data read_csv read_excel f).1.1 ->
  exists msg : string,
    (load_data read_csv read_excel f).1.2 = Some msg
    /\ main read_csv read_excel w (Some f)
       = ([:: Error ("Erreur lors du chargement du fichier: " ++ msg)%string],
          Ret tt).
Proof.
rewrite /main.
case: (load_data_cases read_csv read_excel f) => [[df]|[msg []]].
  by case: (load_data _ _ _) => -[df' error] f' /= [-> _].
case: (load_data _ _ _) => -[df' error] f' /= [-> ->] msg_ok _.
by exists msg; split=> //; case: msg msg_ok.
Qed.

Lemma main_shows_only_the_load_error_witness :
  exists msg : string,
    (load_data (pd_read_csv example_parser example_blocks)
       (pd_read_excel (example_parser UTF8)) latin1_upload).1.2 = Some msg
    /\ main (pd_read_csv example_parser example_blocks)
         (pd_read_excel (example_parser UTF8))
         example_run (Some latin1_upload)
       = ([:: Error ("Erreur lors du chargement du fichier: " ++ msg)%string],
          Ret tt).
Proof.
exact: (@main_shows_only_the_load_error
          (pd_read_csv example_parser example_blocks)
          (pd_read_excel (example_parser UTF8))
          example_run latin1_upload isT).
Defined.

Lemma downloads_cat (s1 s2 : seq ui_event) :
  downloads (s1 ++ s2) = downloads s1 ++ downloads s2.
Proof. exact: pmap_cat. Qed.

Lemma downloads_bind (A B : Type) (m : M A) (k : A -> M B) :
  downloads (bind m k).1
  = downloads m.1
    ++ match m.2 with Ret a => downloads (k a).1 | Raise _ => [::] end.
Proof. by rewrite bind_shown downloads_cat; case: m.2. Qed.

Lemma downloads_when (b : bool) (m : M unit) :
  downloads m.1 = [::] -> downloads (when b m).1 = [::].
Proof. by case: b. Qed.

Lemma downloads_seq (A B : Type) (m : M A) (k : A -> M B) :
  downloads m.1 = [::] -> (forall a, downloads (k a).1 = [::]) ->
  downloads (bind m k).1 = [::].
Proof. by move=> quiet_m quiet_k; rewrite downloads_bind quiet_m; case: m.2. Qed.

Ltac no_download :=
  repeat match goal with
  | |- downloads (bind _ _).1 = [::] => apply: downloads_seq => [|?]
  | |- downloads (when _ _).1 = [::] => apply: downloads_when
  | |- downloads (if ?b then _ else _).1 = [::] => case: b
  | |- downloads (let _ := _ in _).1 = [::] => cbv zeta
  | |- _ => by []
  end.

Lemma downloads_duplicate_analysis (w : Widgets) (df : DataFrame) :
  downloads (duplicate_analysis w df).1 = [::].
Proof. by rewrite /duplicate_analysis; no_download. Qed.

Lemma downloads_visualizations (w : Widgets) (df : DataFrame) :
  downloads (visualizations w df).1 = [::].
Proof. by rewrite /visualizations; no_download. Qed.

Lemma downloads_anomaly_analysis (df : DataFrame) :
  downloads (anomaly_analysis df).1 = [::].
Proof.
rewrite /anomaly_analysis; no_download.
by elim: (sort _ _) => //= cn s IH; no_download.
Qed.

Lemma downloads_data_overview (df : DataFrame) :
  downloads (data_overview df).1 = [::].
Proof. by []. Qed.

Lemma len_unique_duplicate (df : DataFrame) (cols : seq string) :
  len (getitem_mask df (invert (is_duplicate df cols)))
  + len (getitem_mask df (is_duplicate df cols)) = len df.
Proof.
rewrite /len rows_unique rows_duplicate !size_filter addnC.
exact: (count_predC (recurs df cols)).
Qed.

Lemma df_empty_getitem_mask (df : DataFrame) (cols : seq string) (m : seq bool) :
  cols != [::] -> all (fun c => c \in columns df) cols ->
  df_empty (getitem_mask df m) = (len (getitem_mask df m) == 0).
Proof.
case: cols => // c cols _ /= /andP[c_df _]; rewrite /df_empty /=.
by case: (columns df) c_df => //= c' l _; rewrite orbF.
Qed.

(* The members of the archive of two frames, when it can be written. *)
Lemma create_download_zip_frames (unique_rows duplicate_rows : DataFrame)
    (unique_filename duplicate_filename : string) members :
  create_download_zip (PyFrame unique_rows) (PyFrame duplicate_rows)
    unique_filename duplicate_filename = Ret members ->
  members
  = (if ~~ df_empty unique_rows
     then [:: ((unique_filename ++ ".xlsx")%string, unique_rows)] else [::])
    ++ (if ~~ df_empty duplicate_rows
        then [:: ((duplicate_filename ++ ".xlsx")%string, duplicate_rows)]
        else [::]).
Proof.
rewrite /create_download_zip /workbook /=.
case: (df_empty unique_rows) => /=; case: (df_empty duplicate_rows) => /=;
  do ?[case: (to_excel _) => [[]|e] //=]; by case.
Qed.

(* The download section after an analysis that has run: it shows its
   button once the archive is written. *)
Lemma downloads_download_section (w : Widgets) (unique_rows duplicate_rows : DataFrame) :
  downloads
    (download_section w
       [:: PyFrame unique_rows; PyFrame duplicate_rows; PyBool true;
           PyStr (w_unique_filename w); PyStr (w_duplicate_filename w)]).1
  = if create_download_zip (PyFrame unique_rows) (PyFrame duplicate_rows)
         (w_unique_filename w) (w_duplicate_filename w) is Ret members
    then [:: (members, ("analyse_lignes_" ++ w_now w ++ ".zip")%string)]
    else [::].
Proof.
rewrite /download_section /bind /call /emit /ret /create_download_zip /workbook /=.
by case: (df_empty unique_rows) => /=; case: (df_empty duplicate_rows) => /=;
   do ?[case: (to_excel _) => [[]|e] //=].
Qed.

(** X9. When the table has loaded, distinct existing columns are selected
    and the button is pressed, a run of main shows at most one download
    button: one when the analysis returns and the archive can be written,
    none otherwise.  The archive is named analyse_lignes_<timestamp>.zip
    and holds the unique rows and the duplicate rows, each under the file
    name entered for it and only if it has rows; no member is empty, and
    the members together have as many rows as the table. *)
Theorem archive_holds_every_row
    (read_csv : encoding -> UploadedFile -> outcome DataFrame * UploadedFile)
    (read_excel : UploadedFile -> outcome DataFrame * UploadedFile)
    (w : Widgets) (f f' : UploadedFile) (df : DataFrame) :
  load_data read_csv read_excel f = ((Some df, None), f') ->
  w_selected_cols w != [::] ->
  uniq (w_selected_cols w) ->
  all (fun c => c \in columns df) (w_selected_cols w) ->
  w_run w ->
  let unique_rows :=
    getitem_mask df (invert (is_duplicate df (w_selected_cols w))) in
  let duplicate_rows := getitem_mask df (is_duplicate df (w_selected_cols w)) in
  let members :=
    (if 0 < len unique_rows
     then [:: (unique_workbook w, unique_rows)] else [::])
    ++ (if 0 < len duplicate_rows
        then [:: (duplicate_workbook w, duplicate_rows)] else [::]) in
  [/\ downloads (main read_csv read_excel w (Some f)).1
        = if returns (duplicate_analysis w df).2
             && returns (create_download_zip (PyFrame unique_rows)
                           (PyFrame duplicate_rows)
                           (w_unique_filename w) (w_duplicate_filename w))
          then [:: (members, ("analyse_lignes_" ++ w_now w ++ ".zip")%string)]
          else [::],
      all (fun m : string * DataFrame => 0 < len m.2) members
    & sumn [seq len m.2 | m <- members] = len df].
Proof.
move=> loaded_df nonempty uniq_cols exist pressed.
set cols := w_selected_cols w in nonempty uniq_cols exist *.
set U := getitem_mask df (invert _); set D := getitem_mask df (is_duplicate _ _).
move=> unique_rows duplicate_rows members.
split.
- rewrite /main loaded_df; cbv iota beta; rewrite [is_error None]/=.
  rewrite downloads_bind [downloads _]/= downloads_bind downloads_data_overview.
  rewrite emit_outcome data_overview_returns downloads_bind.
  rewrite downloads_anomaly_analysis anomaly_analysis_returns downloads_bind.
  rewrite downloads_duplicate_analysis.
  rewrite (duplicate_analysis_outcome nonempty uniq_cols exist pressed).
  rewrite -/cols -/U -/D /analysis_outcome; case: ifP => _ //.
  rewrite /analysis_result [returns _]/= !cat0s; cbv iota beta.
  rewrite [size _ == 5]/= downloads_bind downloads_download_section.
  have quiet : match (download_section w
                        [:: PyFrame U; PyFrame D; PyBool true;
                            PyStr (w_unique_filename w);
                            PyStr (w_duplicate_filename w)]).2 with
               | Ret _ => downloads (visualizations w df).1
               | Raise _ => [::]
               end = [::].
    by case: (download_section _ _).2 => // _; rewrite downloads_visualizations.
  rewrite quiet cats0.
  case zip: (create_download_zip _ _ _ _) => [ms|e] //.
  rewrite (create_download_zip_frames zip) /members /unique_rows /duplicate_rows.
  by rewrite /U /D !(df_empty_getitem_mask _ nonempty exist) -!lt0n.
- by rewrite /members; case lenU: (0 < len unique_rows);
     case lenD: (0 < len duplicate_rows); rewrite /= ?lenU ?lenD.
- rewrite -(len_unique_duplicate df cols) -/U -/D /members.
  rewrite -/unique_rows -/duplicate_rows.
  by case lenU: (len unique_rows) => [|n]; case lenD: (len duplicate_rows) => [|n'];
     rewrite /= ?lenU ?lenD ?addn0 ?add0n.
Qed.

Lemma archive_holds_every_row_witness :
  let unique_rows :=
    getitem_mask example_table (invert (is_duplicate example_table [:: "A"%string])) in
  let duplicate_rows :=
    getitem_mask example_table (is_duplicate example_table [:: "A"%string]) in
  let members :=
    [:: (unique_workbook example_run, unique_rows);
        (duplicate_workbook example_run, duplicate_rows)] in
  [/\ downloads (main (pd_read_csv example_parser example_blocks)
                   (pd_read_excel (example_parser UTF8))
                   example_run (Some example_upload)).1
        = [:: (members, "analyse_lignes_20250101_120000.zip"%string)],
      all (fun m : string * DataFrame => 0 < len m.2) members
    & sumn [seq len m.2 | m <- members] = 4].
Proof.
exact: (@archive_holds_every_row
          (pd_read_csv example_parser example_blocks)
          (pd_read_excel (example_parser UTF8))
          example_run example_upload (exhausted example_upload) example_table
          erefl isT isT isT isT).
Defined.

Lemma duplicate_analysis_without_run (w : Widgets) (df : DataFrame) :
  ~~ w_run w ->
  (duplicate_analysis w df).2
  = Ret (if nilp (w_selected_cols w) then [:: PyNone; PyNone; PyBool false]
         else [:: PyNone; PyNone; PyBool false; PyNone; PyNone]).
Proof.
move=> /negbTE not_run; rewrite /duplicate_analysis !outcomeE /=.
by case: ifP => _; rewrite !outcomeE //= not_run.
Qed.

(** X10. As long as the analysis button is not pressed, a run of main shows
    no download button, whatever the upload, the readers and the other
    widgets. *)
Theorem no_download_before_the_analysis
    (read_csv : encoding -> UploadedFile -> outcome DataFrame * UploadedFile)
    (read_excel : UploadedFile -> outcome DataFrame * UploadedFile)
    (w : Widgets) (uploaded_file : option UploadedFile) :
  ~~ w_run w ->
  downloads (main read_csv read_excel w uploaded_file).1 = [::].
Proof.
move=> not_run; rewrite /main; case: uploaded_file => [f|] //.
case: (load_data _ _ _) => -[[df|] error] f'; case: (is_error error) => //.
rewrite downloads_bind [downloads _]/= downloads_bind downloads_data_overview.
rewrite emit_outcome data_overview_returns downloads_bind.
rewrite downloads_anomaly_analysis anomaly_analysis_returns downloads_bind.
rewrite downloads_duplicate_analysis duplicate_analysis_without_run //.
by case: (nilp _); rewrite downloads_bind //= downloads_visualizations.
Qed.

Lemma no_download_before_the_analysis_witness :
  downloads (main (pd_read_csv example_parser example_blocks)
               (pd_read_excel (example_parser UTF8))
               nothing_selected (Some example_upload)).1 = [::].
Proof.
exact: (@no_download_before_the_analysis
          (pd_read_csv example_parser example_blocks)
          (pd_read_excel (example_parser UTF8))
          nothing_selected (Some example_upload) isT).
Defined.

(* What one of the two blocks of create_download_zip adds to the archive. *)
Lemma written_member (filename : string) (v : pyval) (present : bool)
    (member : seq (string * DataFrame)) :
  not_none_nor_empty v = Ret present ->
  (if present then workbook filename v else Ret [::]) = Ret member ->
  [/\ size member <= 1,
      all (fun m : string * DataFrame => ~~ df_empty m.2) member
    & all (fun m : string * DataFrame => m.1 == (filename ++ ".xlsx")%string)
          member].
Proof.
case: v => [|b|s|f] //= [<-]; first by case=> <-.
case f_rows: (df_empty f) => /=; first by case=> <-.
by case: (to_excel f) => [[]|e] //= [<-]; rewrite /= f_rows eqxx.
Qed.

(** X11. Whatever create_download_zip is given, the archive it returns has
    at most two members, none of them an empty table, each named after one
    of the two file names with the suffix .xlsx. *)
Theorem create_download_zip_members
    (unique_df duplicate_df : pyval) (unique_filename duplicate_filename : string)
    (members : seq (string * DataFrame)) :
  create_download_zip unique_df duplicate_df unique_filename duplicate_filename
    = Ret members ->
  [/\ size members <= 2,
      all (fun m : string * DataFrame => ~~ df_empty m.2) members
    & all (fun m : string * DataFrame =>
             m.1 \in [:: (unique_filename ++ ".xlsx")%string;
                         (duplicate_filename ++ ".xlsx")%string]) members].
Proof.
rewrite /create_download_zip.
case eq_u: (not_none_nor_empty unique_df) => [u|e] //=.
case eq_mu: (if u then _ else _) => [mu|e] //=.
case eq_d: (not_none_nor_empty duplicate_df) => [d|e] //=.
case eq_md: (if d then _ else _) => [md|e] //= [<-].
have [size_mu rows_mu name_mu] := written_member eq_u eq_mu.
have [size_md rows_md name_md] := written_member eq_d eq_md.
split; first by rewrite size_cat (leq_add size_mu size_md).
  by rewrite all_cat rows_mu rows_md.
rewrite all_cat; apply/andP; split.
  by apply: sub_all name_mu => m /eqP->; rewrite inE eqxx.
by apply: sub_all name_md => m /eqP->; rewrite !inE eqxx orbT.
Qed.

Lemma create_download_zip_members_witness :
  [/\ size [:: ("u.xlsx"%string, example_table)] <= 2,
      all (fun m : string * DataFrame => ~~ df_empty m.2)
          [:: ("u.xlsx"%string, example_table)]
    & all (fun m : string * DataFrame =>
             m.1 \in [:: ("u" ++ ".xlsx")%string; ("d" ++ ".xlsx")%string])
          [:: ("u.xlsx"%string, example_table)]].
Proof.
exact: (@create_download_zip_members (PyFrame example_table) PyNone "u" "d"
          [:: ("u.xlsx"%string, example_table)] erefl).
Defined.

Section Selections.

Variable df : DataFrame.

(* Two rows have the same key when they agree in every selected column. *)
Lemma project_eq (cols : seq string) (r1 r2 : row) :
  (project df cols r1 == project df cols r2)
  = all (fun c => cell df r1 c == cell df r2 c) cols.
Proof. by elim: cols => //= c cols <-. Qed.

Lemma project_sub (cols cols' : seq string) (r1 r2 : row) :
  {subset cols <= cols'} ->
  project df cols' r1 == project df cols' r2 ->
  project df cols r1 == project df cols r2.
Proof.
move=> sub; rewrite !project_eq => /allP same; apply/allP => c /sub.
exact: same.
Qed.

(* A larger selection tells more rows apart. *)
Lemma recurs_sub (cols cols' : seq string) (lr : nat * row) :
  {subset cols <= cols'} -> recurs df cols' lr -> recurs df cols lr.
Proof.
move=> sub; rewrite !recursE !size_filter => twice.
by apply: (leq_trans twice); apply: sub_count => x /=; exact: project_sub.
Qed.

Lemma recurs_eq (cols cols' : seq string) :
  cols =i cols' -> recurs df cols =1 recurs df cols'.
Proof.
move=> same lr; apply/idP/idP; apply: recurs_sub => c; by rewrite same.
Qed.

Lemma is_duplicate_eq (cols cols' : seq string) :
  cols =i cols' -> is_duplicate df cols = is_duplicate df cols'.
Proof. by move=> same; rewrite !is_duplicateE; apply/eq_map/recurs_eq. Qed.

Lemma subseq_filter_imply (T : eqType) (p q : pred T) (s : seq T) :
  (forall x, p x -> q x) -> subseq (filter p s) (filter q s).
Proof.
move=> p_q; have -> : filter p s = filter p (filter q s).
  rewrite -filter_predI; apply: eq_filter => x /=.
  by case p_x: (p x); rewrite ?(p_q x p_x).
exact: filter_subseq.
Qed.

End Selections.

(** X12. Selecting more columns can only turn duplicates into unique rows:
    for two runs on the same table, the second with every column of the
    first and possibly more, the duplicate rows of the second (line 172)
    are among those of the first, and the unique rows of the first (line
    171) are among those of the second, in the order of the table.  Each
    run returns its two frames, unless it has duplicate rows and a selected
    column named count. *)
Theorem larger_selection_fewer_duplicates (w w' : Widgets) (df : DataFrame) :
  w_selected_cols w != [::] ->
  uniq (w_selected_cols w) ->
  uniq (w_selected_cols w') ->
  {subset w_selected_cols w <= w_selected_cols w'} ->
  all (fun c => c \in columns df) (w_selected_cols w') ->
  w_run w -> w_run w' ->
  let unique_rows :=
    getitem_mask df (invert (is_duplicate df (w_selected_cols w))) in
  let duplicate_rows := getitem_mask df (is_duplicate df (w_selected_cols w)) in
  let unique_rows' :=
    getitem_mask df (invert (is_duplicate df (w_selected_cols w'))) in
  let duplicate_rows' := getitem_mask df (is_duplicate df (w_selected_cols w')) in
  [/\ (duplicate_analysis w df).2 = analysis_outcome w unique_rows duplicate_rows,
      (duplicate_analysis w' df).2
        = analysis_outcome w' unique_rows' duplicate_rows',
      subseq (rows duplicate_rows') (rows duplicate_rows)
    & subseq (rows unique_rows) (rows unique_rows')].
Proof.
move=> nonempty uniq_cols uniq_cols' sub exist' pressed pressed'.
have nonempty' : w_selected_cols w' != [::].
  case: (w_selected_cols w) nonempty sub => // c cols _ /(_ c).
  by rewrite inE eqxx => /(_ isT); case: (w_selected_cols w').
have exist : all (fun c => c \in columns df) (w_selected_cols w).
  by apply/allP => c /sub; exact: (allP exist').
move=> unique_rows duplicate_rows unique_rows' duplicate_rows'.
split; try exact: duplicate_analysis_outcome.
- rewrite !rows_duplicate; apply: subseq_filter_imply => lr.
  exact: recurs_sub.
- rewrite !rows_unique; apply: subseq_filter_imply => lr.
  by apply: contra; exact: recurs_sub.
Qed.

Lemma larger_selection_fewer_duplicates_witness :
  let unique_rows :=
    getitem_mask example_table (invert (is_duplicate example_table [:: "A"%string])) in
  let duplicate_rows :=
    getitem_mask example_table (is_duplicate example_table [:: "A"%string]) in
  let unique_rows' :=
    getitem_mask example_table
      (invert (is_duplicate example_table [:: "A"; "B"]%string)) in
  let duplicate_rows' :=
    getitem_mask example_table (is_duplicate example_table [:: "A"; "B"]%string) in
  [/\ (duplicate_analysis example_run example_table).2
        = analysis_outcome example_run unique_rows duplicate_rows,
      (duplicate_analysis example_run_AB example_table).2
        = analysis_outcome example_run_AB unique_rows' duplicate_rows',
      subseq (rows duplicate_rows') (rows duplicate_rows)
    & subseq (rows unique_rows) (rows unique_rows')].
Proof.
apply: (@larger_selection_fewer_duplicates example_run example_run_AB
          example_table) => //.
by move=> c; rewrite !inE => /eqP->; rewrite eqxx.
Defined.

(** X13. The classification does not depend on the order in which the
    columns were selected: for two runs on the same table whose selections
    hold the same columns, lines 170-172 build the same unique rows and the
    same duplicate rows, and each run returns them, unless there are
    duplicate rows and a selected column is named count. *)
Theorem selection_order_is_irrelevant (w w' : Widgets) (df : DataFrame) :
  w_selected_cols w != [::] ->
  uniq (w_selected_cols w) ->
  uniq (w_selected_cols w') ->
  w_selected_cols w =i w_selected_cols w' ->
  all (fun c => c \in columns df) (w_selected_cols w) ->
  w_run w -> w_run w' ->
  let unique_rows :=
    getitem_mask df (invert (is_duplicate df (w_selected_cols w))) in
  let duplicate_rows := getitem_mask df (is_duplicate df (w_selected_cols w)) in
  [/\ getitem_mask df (invert (is_duplicate df (w_selected_cols w'))) = unique_rows,
      getitem_mask df (is_duplicate df (w_selected_cols w')) = duplicate_rows,
      (duplicate_analysis w df).2 = analysis_outcome w unique_rows duplicate_rows
    & (duplicate_analysis w' df).2
      = analysis_outcome w' unique_rows duplicate_rows].
Proof.
move=> nonempty uniq_cols uniq_cols' same exist pressed pressed'.
have nonempty' : w_selected_cols w' != [::].
  case: (w_selected_cols w) nonempty same => // c cols _ /(_ c).
  by rewrite inE eqxx; case: (w_selected_cols w').
have exist' : all (fun c => c \in columns df) (w_selected_cols w').
  by apply/allP => c; rewrite -same; exact: (allP exist).
move=> unique_rows duplicate_rows.
split; rewrite /unique_rows /duplicate_rows ?(is_duplicate_eq df same) //.
  by rewrite -(is_duplicate_eq df same); exact: duplicate_analysis_outcome.
exact: duplicate_analysis_outcome.
Qed.

Lemma selection_order_is_irrelevant_witness :
  let unique_rows :=
    getitem_mask example_table
      (invert (is_duplicate example_table [:: "A"; "B"]%string)) in
  let duplicate_rows :=
    getitem_mask example_table (is_duplicate example_table [:: "A"; "B"]%string) in
  [/\ getitem_mask example_table
        (invert (is_duplicate example_table [:: "B"; "A"]%string)) = unique_rows,
      getitem_mask example_table (is_duplicate example_table [:: "B"; "A"]%string)
        = duplicate_rows,
      (duplicate_analysis example_run_AB example_table).2
        = analysis_outcome example_run_AB unique_rows duplicate_rows
    & (duplicate_analysis example_run_BA example_table).2
      = analysis_outcome example_run_BA unique_rows duplicate_rows].
Proof.
apply: (@selection_order_is_irrelevant example_run_AB example_run_BA
          example_table) => //.
by move=> c; rewrite !inE orbC.
Defined.

Section Reclassification.

Variables (df : DataFrame) (cols : seq string).

Let D := getitem_mask df (is_duplicate df cols).
Let U := getitem_mask df (invert (is_duplicate df cols)).

(* Whether a row recurs depends on its key only. *)
Lemma recurs_key (lr lr' : nat * row) :
  project df cols lr.2 = project df cols lr'.2 ->
  recurs df cols lr = recurs df cols lr'.
Proof. by rewrite /recurs => ->. Qed.

Lemma recurs_duplicate_rows (lr : nat * row) :
  lr \in rows D -> recurs D cols lr.
Proof.
rewrite /D rows_duplicate mem_filter => /andP[lr_recurs _].
rewrite recursE rows_duplicate size_filter count_filter.
have -> : count (predI (fun x : nat * row =>
                          project df cols x.2 == project df cols lr.2)
                       (recurs df cols)) (rows df)
          = count (fun x : nat * row =>
                     project df cols x.2 == project df cols lr.2) (rows df).
  apply: eq_count => x /=; case: eqP => //= same_key.
  by rewrite (recurs_key same_key).
by move: lr_recurs; rewrite recursE size_filter.
Qed.

Lemma recurs_unique_rows (lr : nat * row) :
  lr \in rows U -> ~~ recurs U cols lr.
Proof.
rewrite /U rows_unique mem_filter => /andP[not_recurs _]; apply: contra not_recurs.
rewrite !recursE rows_unique !size_filter count_filter => twice.
by apply: (leq_trans twice); apply: sub_count => x /= /andP[].
Qed.

Lemma filter_none (T : Type) (p : pred T) (s : seq T) :
  ~~ has p s -> filter p s = [::].
Proof. by elim: s => //= x s IH; rewrite negb_or => /andP[/negbTE-> /IH]. Qed.

Lemma duplicates_of_duplicate_rows : getitem_mask D (is_duplicate D cols) = D.
Proof.
rewrite {1}/getitem_mask -[mask _ _]/(rows (getitem_mask D _)) rows_duplicate.
have -> // : [seq lr <- rows D | recurs D cols lr] = rows D.
by apply/all_filterP/allP => lr /recurs_duplicate_rows.
Qed.

Lemma uniques_of_duplicate_rows :
  getitem_mask D (invert (is_duplicate D cols))
  = mkDataFrame (columns df) (dtypes df) [::].
Proof.
rewrite {1}/getitem_mask -[mask _ _]/(rows (getitem_mask D _)) rows_unique.
rewrite filter_none //; apply/hasPn => lr /recurs_duplicate_rows.
by rewrite negbK.
Qed.

Lemma uniques_of_unique_rows : getitem_mask U (invert (is_duplicate U cols)) = U.
Proof.
rewrite {1}/getitem_mask -[mask _ _]/(rows (getitem_mask U _)) rows_unique.
have -> // : [seq lr <- rows U | ~~ recurs U cols lr] = rows U.
by apply/all_filterP/allP => lr /recurs_unique_rows.
Qed.

Lemma duplicates_of_unique_rows :
  getitem_mask U (is_duplicate U cols)
  = mkDataFrame (columns df) (dtypes df) [::].
Proof.
rewrite {1}/getitem_mask -[mask _ _]/(rows (getitem_mask U _)) rows_duplicate.
by rewrite filter_none //; apply/hasPn => lr /recurs_unique_rows.
Qed.

End Reclassification.

(** X14. Classifying a result again changes nothing: a run of the analysis
    on the duplicate rows of lines 170-172, with the same selection, finds
    all of them duplicates and no unique row, and a run on the unique rows
    returns all of them as unique and no duplicate.  The runs that have
    duplicate rows return their frames unless a selected column is named
    count. *)
Theorem reclassification_is_stable (w : Widgets) (df : DataFrame) :
  w_selected_cols w != [::] ->
  uniq (w_selected_cols w) ->
  all (fun c => c \in columns df) (w_selected_cols w) ->
  w_run w ->
  let unique_rows :=
    getitem_mask df (invert (is_duplicate df (w_selected_cols w))) in
  let duplicate_rows := getitem_mask df (is_duplicate df (w_selected_cols w)) in
  let no_rows := mkDataFrame (columns df) (dtypes df) [::] in
  [/\ (duplicate_analysis w df).2 = analysis_outcome w unique_rows duplicate_rows,
      (duplicate_analysis w duplicate_rows).2
        = analysis_outcome w no_rows duplicate_rows
    & (duplicate_analysis w unique_rows).2
        = analysis_result w unique_rows no_rows].
Proof.
move=> nonempty uniq_cols exist pressed unique_rows duplicate_rows no_rows.
split; first exact: duplicate_analysis_outcome.
- rewrite (@duplicate_analysis_outcome w duplicate_rows nonempty uniq_cols exist pressed).
  by rewrite duplicates_of_duplicate_rows uniques_of_duplicate_rows.
- rewrite (@duplicate_analysis_outcome w unique_rows nonempty uniq_cols exist pressed).
  rewrite duplicates_of_unique_rows uniques_of_unique_rows /analysis_outcome.
  by rewrite andbF.
Qed.

Lemma reclassification_is_stable_witness :
  let unique_rows :=
    getitem_mask example_table (invert (is_duplicate example_table [:: "A"%string])) in
  let duplicate_rows :=
    getitem_mask example_table (is_duplicate example_table [:: "A"%string]) in
  let no_rows := mkDataFrame (columns example_table) (dtypes example_table) [::] in
  [/\ (duplicate_analysis example_run example_table).2
        = analysis_outcome example_run unique_rows duplicate_rows,
      (duplicate_analysis example_run duplicate_rows).2
        = analysis_outcome example_run no_rows duplicate_rows
    & (duplicate_analysis example_run unique_rows).2
        = analysis_result example_run unique_rows no_rows].
Proof.
exact: (@reclassification_is_stable example_run example_table isT isT isT isT).
Defined.

Section Group_summary.

Variables (df : DataFrame) (cols : seq string).

Let m := is_duplicate df cols.

(* A key that groupby keeps is the key of at least two rows, and all the
   rows that have it were kept. *)
Lemma count_grouped_key (k : row) :
  k \in grouped_keys df cols m ->
  count_mem k (grouped_keys df cols m) = count_mem k (selection_keys df cols)
  /\ 1 < count_mem k (selection_keys df cols).
Proof.
rewrite /grouped_keys /m is_duplicateE -filter_mask mem_filter.
move=> /andP[no_missing /mapP[lr]]; rewrite mem_filter => /andP[lr_recurs _] k_lr.
split; last by move: lr_recurs; rewrite /recurs -k_lr.
rewrite count_filter /selection_keys !count_map count_filter.
apply: eq_count => x /=; case: eqP => //= same_key.
rewrite same_key no_missing /=.
by rewrite (@recurs_key df cols x lr) // same_key.
Qed.

End Group_summary.

(** X15. Every entry of the summary of the duplicate groups is a group of
    at least two rows: its count is 2 or more and is the number of rows of
    the whole table with that combination; no combination is listed twice,
    and none holds a missing value. *)
Theorem duplicate_groups_have_two_rows_or_more
    (df : DataFrame) (cols : seq string) (groups : group_table) :
  all (fun c => c \in columns df) cols ->
  duplicate_groups df cols (is_duplicate df cols) = Ret groups ->
  [/\ all (fun kc : row * nat =>
             (1 < kc.2) && (kc.2 == count_mem kc.1 (selection_keys df cols)))
          groups,
      uniq [seq kc.1 | kc <- groups]
    & all (fun kc : row * nat => ~~ has isna kc.1) groups].
Proof.
move=> exist /(duplicate_groups_inv exist) ->.
rewrite /sort_values_count_desc; split.
- rewrite all_sort all_map all_sort; apply/allP => k /=.
  rewrite mem_undup => /count_grouped_key[-> ->].
  by rewrite eqxx.
- rewrite (perm_uniq (perm_map _ (permEl (perm_sort _ _)))) -map_comp.
  by rewrite map_id_in // sort_uniq undup_uniq.
- rewrite all_sort all_map all_sort; apply/allP => k /=.
  by rewrite mem_undup /grouped_keys mem_filter => /andP[].
Qed.

Lemma duplicate_groups_have_two_rows_or_more_witness :
  [/\ all (fun kc : row * nat =>
             (1 < kc.2)
             && (kc.2 == count_mem kc.1 (selection_keys example_table [:: "A"%string])))
          [:: ([:: VInt 1], 3)],
      uniq [seq kc.1 | kc <- [:: ([:: VInt 1], 3)]]
    & all (fun kc : row * nat => ~~ has isna kc.1) [:: ([:: VInt 1], 3)]].
Proof.
exact: (@duplicate_groups_have_two_rows_or_more example_table [:: "A"%string]
          [:: ([:: VInt 1], 3)] isT erefl).
Defined.

(** X16. The counts of the summary add up to the duplicate rows that have
    no missing value in a selected column: never to more than the
    duplicate rows, and to all of them exactly when none has a missing
    value there. *)
Theorem duplicate_groups_count_rows_without_missing
    (df : DataFrame) (cols : seq string) (groups : group_table) :
  all (fun c => c \in columns df) cols ->
  duplicate_groups df cols (is_duplicate df cols) = Ret groups ->
  let duplicate_rows := getitem_mask df (is_duplicate df cols) in
  let complete (lr : nat * row) := ~~ has isna (project df cols lr.2) in
  [/\ count_total groups = count complete (rows duplicate_rows),
      count_total groups <= len duplicate_rows
    & (count_total groups == len duplicate_rows)
      = all complete (rows duplicate_rows)].
Proof.
move=> exist /(count_total_duplicate_groups exist) -> /=.
by split; rewrite ?count_size ?all_count.
Qed.

Lemma duplicate_groups_count_rows_without_missing_witness :
  let duplicate_rows :=
    getitem_mask missing_table (is_duplicate missing_table [:: "A"%string]) in
  let complete (lr : nat * row) :=
    ~~ has isna (project missing_table [:: "A"%string] lr.2) in
  [/\ count_total [::] = count complete (rows duplicate_rows),
      count_total [::] <= len duplicate_rows
    & (count_total [::] == len duplicate_rows)
      = all complete (rows duplicate_rows)].
Proof.
exact: (@duplicate_groups_count_rows_without_missing missing_table
          [:: "A"%string] [::] isT erefl).
Defined.

Section Once_or_more.

Variables (T : eqType) (s : seq T).

Let twice : pred T := fun k => 1 < count_mem k s.

(* The elements that occur once, each listed once. *)
Lemma uniq_filter_once : uniq [seq k <- s | ~~ twice k].
Proof.
apply: count_mem_uniq => x; rewrite count_filter mem_filter.
case twice_x: (twice x) => /=.
  have -> : count (predI (pred1 x) (fun k => ~~ twice k)) s = count pred0 s.
    by apply: eq_count => y /=; case: eqP => // ->; rewrite twice_x.
  by rewrite count_pred0.
have -> : count (predI (pred1 x) (fun k => ~~ twice k)) s = count_mem x s.
  by apply: eq_count => y /=; case: eqP => // ->; rewrite twice_x.
rewrite -has_pred1 has_count; move: twice_x; rewrite /twice.
by case: (count_mem x s) => [|[|n]].
Qed.

Lemma size_undup_twice :
  size (undup s) = size (undup [seq k <- s | twice k]) + count (predC twice) s.
Proof.
rewrite -(count_predC twice (undup s)) -!size_filter !filter_undup.
by rewrite [undup [seq k <- s | predC twice k]]undup_id ?uniq_filter_once.
Qed.

End Once_or_more.

Section Whole_rows.

Variable df : DataFrame.

Hypothesis df_loaded : loaded df.

Let keys : seq row := [seq lr.2 | lr <- rows df].

(* On a loaded table the projection onto all columns is the row. *)
Lemma project_all_columns (lr : nat * row) :
  lr \in rows df -> project df (columns df) lr.2 = lr.2.
Proof.
case/and4P: df_loaded => uniq_cols _ /allP widths _ /widths /eqP width.
apply: (@eq_from_nth _ VMissing); first by rewrite size_map.
move=> i; rewrite size_map => lt_i.
by rewrite (nth_map EmptyString) // /cell index_uniq.
Qed.

Lemma selection_keys_all_columns : selection_keys df (columns df) = keys.
Proof. by apply/eq_in_map => lr /project_all_columns. Qed.

Lemma recurs_all_columns (lr : nat * row) :
  lr \in rows df -> recurs df (columns df) lr = (1 < count_mem lr.2 keys).
Proof.
by move=> lr_df; rewrite /recurs selection_keys_all_columns project_all_columns.
Qed.

Lemma keys_of_whole_row_duplicates :
  [seq lr.2 | lr <- rows (getitem_mask df (is_duplicate df (columns df)))]
  = [seq k <- keys | 1 < count_mem k keys].
Proof.
rewrite rows_duplicate filter_map; congr map.
by apply: eq_in_filter => lr /recurs_all_columns.
Qed.

Lemma duplicated_sum_all_columns :
  duplicated_sum df + size (undup [seq k <- keys | 1 < count_mem k keys])
  = count (fun k => 1 < count_mem k keys) keys.
Proof.
have := count_duplicated_scan_first [::] keys.
rewrite (@eq_filter _ _ predT) // filter_predT size_undup_twice addnA.
rewrite -(count_predC (fun k => 1 < count_mem k keys) keys).
by move/addIn.
Qed.

End Whole_rows.

(** X17. On a loaded table, the whole-row duplicate count of the overview
    and the duplicate rows that the classification returns for the
    selection of all columns differ by the number of distinct rows among
    those duplicate rows (one per group of identical rows); so the count
    never exceeds the number of those rows, and one is 0 exactly when the
    other is. *)
Theorem whole_row_count_versus_all_columns (df : DataFrame) :
  loaded df ->
  let duplicate_rows := getitem_mask df (is_duplicate df (columns df)) in
  [/\ duplicated_sum df + size (undup [seq lr.2 | lr <- rows duplicate_rows])
        = len duplicate_rows,
      duplicated_sum df <= len duplicate_rows
    & (duplicated_sum df == 0) = (len duplicate_rows == 0)].
Proof.
move=> df_loaded /=.
have len_D : len (getitem_mask df (is_duplicate df (columns df)))
             = count (fun k => 1 < count_mem k [seq lr.2 | lr <- rows df])
                     [seq lr.2 | lr <- rows df].
  by rewrite /len -(size_map snd) keys_of_whole_row_duplicates // size_filter.
have sum := duplicated_sum_all_columns df.
split; first by rewrite keys_of_whole_row_duplicates // len_D.
  by rewrite len_D -sum leq_addr.
apply/idP/idP => [/eqP sum0|]; last first.
  by rewrite len_D -sum addn_eq0 => /andP[].
have uniq_keys : uniq [seq lr.2 | lr <- rows df].
  have := count_duplicated_scan_first [::] [seq lr.2 | lr <- rows df].
  rewrite (@eq_filter _ _ predT) // filter_predT -/(duplicated KeepFirst df).
  rewrite -/(duplicated_sum df) sum0 add0n => size_undup_keys.
  by rewrite -[uniq _]negbK -ltn_size_undup size_undup_keys ltnn.
rewrite len_D -[_ == 0]negbK -lt0n -has_count.
by apply/hasPn => k k_keys; rewrite (count_uniq_mem _ uniq_keys) k_keys.
Qed.

Lemma whole_row_count_versus_all_columns_witness :
  let duplicate_rows :=
    getitem_mask example_table (is_duplicate example_table (columns example_table)) in
  [/\ duplicated_sum example_table
      + size (undup [seq lr.2 | lr <- rows duplicate_rows]) = len duplicate_rows,
      duplicated_sum example_table <= len duplicate_rows
    & (duplicated_sum example_table == 0) = (len duplicate_rows == 0)].
Proof. exact: (@whole_row_count_versus_all_columns example_table isT). Defined.




Lemma sumn_filter_pos (s : seq nat) : sumn [seq n <- s | 0 < n] = sumn s.
Proof. by elim: s => //= n s <-; case: n. Qed.

Lemma sumn_eq0 (s : seq nat) : (sumn s == 0) = ~~ has (fun n => 0 < n) s.
Proof. by elim: s => //= n s IH; rewrite addn_eq0 IH negb_or -leqNgt leqn0. Qed.

Lemma counts_of_missing_data (df : DataFrame) :
  perm_eq [seq cn.2 | cn <- missing_data df]
          [seq n <- [seq isna_sum df c | c <- columns df] | 0 < n].
Proof.
apply: (perm_trans (perm_map _ (permEl (perm_sort _ _)))).
by rewrite !filter_map -map_comp; exact: perm_refl.
Qed.

Lemma third_of_anomaly_analysis (df : DataFrame) :
  nth (Header EmptyString) (anomaly_analysis df).1 2
  = if 0 < size (missing_data df)
    then PlotlyChart (BarMissing (missing_data df))
    else Success "✅ Aucune valeur manquante détectée!".
Proof.
rewrite /anomaly_analysis -/(missing_data df).
case: (0 < size _); rewrite /bind /emit /when /ret /=.
  by case: (foldr _ _ _) => shown [[]|e] /=; try case: ifP.
by case: ifP.
Qed.

(** X19. The anomaly summary reports the missing values after its two
    headings: the message that none was found when the table has no
    missing value, and otherwise a chart of the columns that miss values:
    each of them once with its number of missing values, the largest
    first, in some order among columns that miss equally many; the numbers
    of the chart add up to the total of missing values that the overview
    shows. *)
Theorem anomaly_analysis_missing_values (df : DataFrame) :
  exists bars : seq (string * nat),
    [/\ nth (Header EmptyString) (anomaly_analysis df).1 2
          = if isna_sum_sum df == 0
            then Success "✅ Aucune valeur manquante détectée!"
            else PlotlyChart (BarMissing bars),
        perm_eq bars
          [seq cn <- [seq (c, isna_sum df c) | c <- columns df] | 0 < cn.2],
        sorted geq [seq cn.2 | cn <- bars]
      & sumn [seq cn.2 | cn <- bars] = isna_sum_sum df].
Proof.
have sum : sumn [seq cn.2 | cn <- missing_data df] = isna_sum_sum df.
  by rewrite (perm_sumn (counts_of_missing_data df)) sumn_filter_pos.
have positive : all (fun n => 0 < n) [seq cn.2 | cn <- missing_data df].
  by rewrite (perm_all _ (counts_of_missing_data df)) filter_all.
exists (missing_data df); split=> //.
- rewrite third_of_anomaly_analysis -sum sumn_eq0.
  by case: (missing_data df) positive => //= cn s /andP[-> _].
- by rewrite /missing_data perm_sort.
- rewrite sorted_map /missing_data; apply: sort_sorted => a b /=.
  exact: leq_total.
Qed.

(** X20. The table of column information that ends the overview has one
    line per column of the table, in order; in every line the cells that
    are not missing and the missing ones add up to the number of rows, and
    the number of distinct values is at most the number of cells that are
    not missing. *)
Theorem data_overview_column_info (df : DataFrame) :
  exists info : seq (string * dtype * nat * nat * nat),
    [/\ last (Header EmptyString) (data_overview df).1 = ColumnInfo info,
        [seq line.1.1.1.1 | line <- info] = columns df
      & all (fun line : string * dtype * nat * nat * nat =>
               let: (_, _, not_missing, missing, distinct) := line in
               (not_missing + missing == len df) && (distinct <= not_missing))
            info].
Proof.
eexists; split; first by [].
  by rewrite -map_comp map_id_in.
apply/allP => line /mapP[c _ ->].
rewrite /count_notna /isna_sum addnC count_predC /column_values size_map eqxx /=.
by rewrite /nunique (leq_trans (size_undup _)) // size_filter.
Qed.

Section Every_event.

Variable Q : pred ui_event.

Lemma every_bind (A B : Type) (m : M A) (k : A -> M B) :
  all Q m.1 -> (forall a, all Q (k a).1) -> all Q (bind m k).1.
Proof. by move=> Q_m Q_k; rewrite bind_shown all_cat Q_m; case: m.2. Qed.

Lemma every_when (b : bool) (m : M unit) : all Q m.1 -> all Q (when b m).1.
Proof. by case: b. Qed.

Lemma every_call (A B : Type) (o : outcome A) (k : A -> M B) :
  (forall a, o = Ret a -> all Q (k a).1) -> all Q (bind (call o) k).1.
Proof. by rewrite bind_shown; case: o => [a|e] //= Q_k; exact: Q_k. Qed.

End Every_event.

Ltac every_event :=
  repeat match goal with
  | |- is_true (all _ (bind (call _) _).1) => apply: every_call => ? ?
  | |- is_true (all _ (bind _ _).1) => apply: every_bind => [|?]
  | |- is_true (all _ (when _ _).1) => apply: every_when
  | |- is_true (all _ (if ?b then _ else _).1) => case: ifP => ?
  | |- is_true (all _ (let _ := _ in _).1) => cbv zeta
  | |- _ => by []
  end.

(** X21. No pie chart of the visualizations has more than 10 slices,
    whatever the table and the widgets. *)
Theorem pie_charts_have_at_most_10_slices (w : Widgets) (df : DataFrame) :
  all (fun n => n <= 10) (pie_sizes (visualizations w df).1).
Proof.
have -> : pie_sizes (visualizations w df).1
          = pmap (fun e => if e is PlotlyChart (PieChart slices _)
                           then Some (size slices) else None)
                 (visualizations w df).1 by [].
rewrite all_pmap; rewrite /visualizations; every_event.
- match goal with
  | bar : px_bar _ _ = Ret _ |- _ =>
      by move: bar; rewrite /px_bar; case: nilp => // -[<-]
  end.
- by rewrite /emit /= andbT size_take_min geq_minl.
- match goal with
  | over_10 : (10 < _) = false |- _ => by rewrite /emit /= andbT leqNgt over_10
  end.
Qed.

Section Value_counts.

Variable vals : seq value.

Let present := [seq v <- vals | ~~ isna v].






End Value_counts.



(** X23. The tables that a run previews are short, however large the
    table: the overview shows at most 10 rows, and the analysis of the
    combinations shows at most 100 rows of the unique rows, at most 100 of
    the duplicate rows and at most 10 groups of the summary. *)
Theorem previews_are_bounded (w : Widgets) (df : DataFrame) :
  [/\ all (fun n => n <= 10) (table_previews (data_overview df).1),
      all (fun n => n <= 100) (table_previews (duplicate_analysis w df).1)
    & all (fun n => n <= 10) (group_previews (duplicate_analysis w df).1)].
Proof.
split; first by rewrite /= /len /= size_take_min geq_minl.
- have -> : table_previews (duplicate_analysis w df).1
            = pmap (fun e => if e is Dataframe d then Some (len d) else None)
                   (duplicate_analysis w df).1 by [].
  by rewrite all_pmap /duplicate_analysis; every_event;
     rewrite /emit /= andbT /len /= size_take_min geq_minl.
- have -> : group_previews (duplicate_analysis w df).1
            = pmap (fun e => if e is Groups g then Some (size g) else None)
                   (duplicate_analysis w df).1 by [].
  by rewrite all_pmap /duplicate_analysis; every_event;
     rewrite /emit /= andbT size_take_min geq_minl.
Qed.

(** X24. When the analysis runs, the three figures it shows agree with the
    frames of lines 171-172: the total is the number of rows of the table,
    the other two are the numbers of unique and of duplicate rows, and the
    total is their sum.  The figures are shown before the summary of line
    200 is built, so also when duplicate_analysis does not return the
    frames because a selected column is named count. *)
Theorem analysis_metrics_add_up (w : Widgets) (df : DataFrame) :
  w_selected_cols w != [::] ->
  uniq (w_selected_cols w) ->
  all (fun c => c \in columns df) (w_selected_cols w) ->
  w_run w ->
  let unique_rows :=
    getitem_mask df (invert (is_duplicate df (w_selected_cols w))) in
  let duplicate_rows := getitem_mask df (is_duplicate df (w_selected_cols w)) in
  [/\ (duplicate_analysis w df).2 = analysis_outcome w unique_rows duplicate_rows,
      take 3 (drop 8 (duplicate_analysis w df).1)
        = [:: Metric "Total des lignes" (len df);
              Metric "Lignes avec combinaisons uniques" (len unique_rows);
              Metric "Lignes avec combinaisons dupliquées" (len duplicate_rows)]
    & len unique_rows + len duplicate_rows = len df].
Proof.
move=> nonempty uniq_cols exist pressed unique_rows duplicate_rows.
split; first exact: duplicate_analysis_outcome.
  exact: duplicate_analysis_metrics.
exact: len_unique_duplicate.
Qed.

Lemma analysis_metrics_add_up_witness :
  let unique_rows :=
    getitem_mask example_table (invert (is_duplicate example_table [:: "A"%string])) in
  let duplicate_rows :=
    getitem_mask example_table (is_duplicate example_table [:: "A"%string]) in
  [/\ (duplicate_analysis example_run example_table).2
        = analysis_outcome example_run unique_rows duplicate_rows,
      take 3 (drop 8 (duplicate_analysis example_run example_table).1)
        = [:: Metric "Total des lignes" 4;
              Metric "Lignes avec combinaisons uniques" (len unique_rows);
              Metric "Lignes avec combinaisons dupliquées" (len duplicate_rows)]
    & len unique_rows + len duplicate_rows = 4].
Proof.
exact: (@analysis_metrics_add_up example_run example_table isT isT isT isT).
Defined.

(* Whatever the table, the analysis of the combinations offers nothing for
   download itself, and what main shows behind an analysis that has stopped
   is nothing. *)
Lemma main_after_failed_analysis
    (read_csv : encoding -> UploadedFile -> outcome DataFrame * UploadedFile)
    (read_excel : UploadedFile -> outcome DataFrame * UploadedFile)
    (w : Widgets) (f f' : UploadedFile) (df : DataFrame) (e : exn) :
  load_data read_csv read_excel f = ((Some df, None), f') ->
  (duplicate_analysis w df).2 = Raise e ->
  (main read_csv read_excel w (Some f)).2 = Raise e
  /\ downloads (main read_csv read_excel w (Some f)).1 = [::].
Proof.
move=> loaded_df stops; rewrite /main loaded_df; cbv iota beta.
rewrite [is_error None]/=; split.
  rewrite bind_outcome emit_outcome bind_outcome data_overview_returns.
  by rewrite bind_outcome anomaly_analysis_returns bind_outcome stops.
rewrite downloads_bind [downloads _]/= downloads_bind downloads_data_overview.
rewrite emit_outcome data_overview_returns downloads_bind.
rewrite downloads_anomaly_analysis anomaly_analysis_returns downloads_bind.
by rewrite downloads_duplicate_analysis stops.
Qed.

(** X25. When a selected column is named count and some combination of the
    selection occurs twice, the analysis stops on the ValueError of line
    200, where reset_index(name='count') meets the column of that name:
    duplicate_analysis returns nothing, and main stops with it, before the
    download section and the visualizations. *)
Theorem count_column_stops_the_analysis
    (read_csv : encoding -> UploadedFile -> outcome DataFrame * UploadedFile)
    (read_excel : UploadedFile -> outcome DataFrame * UploadedFile)
    (w : Widgets) (f f' : UploadedFile) (df : DataFrame) :
  load_data read_csv read_excel f = ((Some df, None), f') ->
  uniq (w_selected_cols w) ->
  all (fun c => c \in columns df) (w_selected_cols w) ->
  w_run w ->
  "count"%string \in w_selected_cols w ->
  0 < len (getitem_mask df (is_duplicate df (w_selected_cols w))) ->
  exists e : exn,
    [/\ exn_cls e = ValueError,
        (duplicate_analysis w df).2 = Raise e,
        (main read_csv read_excel w (Some f)).2 = Raise e
      & downloads (main read_csv read_excel w (Some f)).1 = [::]].
Proof.
move=> loaded_df uniq_cols exist pressed count_selected duplicates.
have nonempty : w_selected_cols w != [::].
  by case: (w_selected_cols w) count_selected.
have stops := duplicate_analysis_outcome nonempty uniq_cols exist pressed.
rewrite /analysis_outcome count_selected duplicates /= in stops.
have [main_stops no_download] := main_after_failed_analysis loaded_df stops.
by exists (Exn ValueError "cannot insert count, already exists").
Qed.

Lemma count_column_stops_the_analysis_witness :
  exists e : exn,
    [/\ exn_cls e = ValueError,
        (duplicate_analysis select_count count_table).2 = Raise e,
        (main (pd_read_csv count_parser example_blocks)
           (pd_read_excel (count_parser UTF8))
           select_count (Some example_upload)).2 = Raise e
      & downloads (main (pd_read_csv count_parser example_blocks)
                     (pd_read_excel (count_parser UTF8))
                     select_count (Some example_upload)).1 = [::]].
Proof.
exact: (@count_column_stops_the_analysis
          (pd_read_csv count_parser example_blocks)
          (pd_read_excel (count_parser UTF8))
          select_count example_upload (exhausted example_upload) count_table
          erefl isT isT isT isT isT).
Defined.

Lemma value_counts_of_missing (vals : seq value) :
  count (predC isna) vals = 0 -> value_counts vals = [::] /\ nunique vals = 0.
Proof.
move=> all_missing.
have no_present : [seq v <- vals | ~~ isna v] = [::].
  by apply/eqP; rewrite -size_eq0 size_filter; apply/eqP.
by rewrite /value_counts /nunique no_present.
Qed.

(** X26. For a table that is not empty and a selected column whose cells
    are all missing, the choice Bar Chart draws no chart: value_counts() of
    the column is empty, px.bar refuses its two empty arguments, and
    visualizations stops on ValueError. *)
Theorem bar_chart_of_missing_column_fails (w : Widgets) (df : DataFrame) :
  ~~ df_empty df ->
  w_selected_col w \in columns df ->
  w_selected_col w != EmptyString ->
  count_notna df (w_selected_col w) = 0 ->
  w_cat_graph_type w = "Bar Chart"%string ->
  charts (visualizations w df).1 = [::]
  /\ exists e : exn,
       exn_cls e = ValueError /\ (visualizations w df).2 = Raise e.
Proof.
move=> not_empty col_df col_named all_missing bar.
have [no_counts no_values] := value_counts_of_missing all_missing.
rewrite /visualizations (negbTE not_empty) /bind /emit /widget /ret /=.
rewrite col_named /call /getitem_col col_df /= /is_numeric no_values andbF /=.
by rewrite bar /= no_counts /=; split=> //; eexists; split; last by [].
Qed.

Lemma bar_chart_of_missing_column_fails_witness :
  charts (visualizations bar_chart_of_B missing_column_table).1 = [::]
  /\ exists e : exn,
       exn_cls e = ValueError
       /\ (visualizations bar_chart_of_B missing_column_table).2 = Raise e.
Proof.
exact: (@bar_chart_of_missing_column_fails bar_chart_of_B missing_column_table
          isT isT isT erefl erefl).
Defined.
